(** * D3D12::Texture (src/common/d3d12/texture.cpp)

    A shallow embedding of the texture object of the D3D12 backend: its
    fields, its lifecycle operations (Create, Adopt, Destroy, the two moves),
    the usage-state tracking (TransitionToState) and the upload pipeline
    (LoadData with its streaming and staging sub-paths, the row copy).

    The texture talks to collaborators that live in other translation units
    (the device, the descriptor heaps, the command list, the stream buffer,
    the staging texture, the logger).  A method is therefore embedded as a
    finite program over the calls it makes to them ([Prog]); running a
    program against an arbitrary handler of those calls yields the returned
    value and the ordered trace of calls with their answers.  Theorems
    quantify over every handler, that is over every behaviour of the
    collaborators. *)

From Stdlib Require Import ZArith List String Bool Lia ZifyBool.
From Stdlib Require Import Strings.Byte.
Import ListNotations.
Local Open Scope Z_scope.

(** ** Machine integers *)

Module U.
(** [u8], [u16], [u32] are unsigned; arithmetic wraps. *)
Definition wrap (bits z : Z) : Z := z mod 2 ^ bits.
Definition u8 (z : Z) : Z := wrap 8 z.
Definition u16 (z : Z) : Z := wrap 16 z.
Definition u32 (z : Z) : Z := wrap 32 z.
Definition in_u32 (z : Z) : Prop := 0 <= z < 2 ^ 32.
Definition add32 (a b : Z) : Z := u32 (a + b).
Definition mul32 (a b : Z) : Z := u32 (a * b).
End U.

(** ** Windows SDK types used by the file (dxgiformat.h, d3d12.h) *)

Definition DXGI_FORMAT := Z.
Definition DXGI_FORMAT_UNKNOWN : DXGI_FORMAT := 0.
Definition DXGI_FORMAT_R8G8B8A8_UNORM : DXGI_FORMAT := 28.
Definition DXGI_FORMAT_D16_UNORM : DXGI_FORMAT := 55.
Definition DXGI_FORMAT_R8_UNORM : DXGI_FORMAT := 61.
Definition DXGI_FORMAT_B5G6R5_UNORM : DXGI_FORMAT := 85.
Definition DXGI_FORMAT_B5G5R5A1_UNORM : DXGI_FORMAT := 86.
Definition DXGI_FORMAT_B8G8R8A8_UNORM : DXGI_FORMAT := 87.

Definition D3D12_RESOURCE_STATES := Z.
Definition D3D12_RESOURCE_STATE_COMMON : D3D12_RESOURCE_STATES := 0.
Definition D3D12_RESOURCE_STATE_RENDER_TARGET : D3D12_RESOURCE_STATES := 4.
Definition D3D12_RESOURCE_STATE_DEPTH_WRITE : D3D12_RESOURCE_STATES := 16.
Definition D3D12_RESOURCE_STATE_PIXEL_SHADER_RESOURCE : D3D12_RESOURCE_STATES := 128.
Definition D3D12_RESOURCE_STATE_COPY_DEST : D3D12_RESOURCE_STATES := 1024.

Definition D3D12_RESOURCE_FLAGS := Z.
Definition HRESULT := Z.

Definition D3D12_TEXTURE_DATA_PITCH_ALIGNMENT : Z := 256.
Definition D3D12_TEXTURE_DATA_PLACEMENT_ALIGNMENT : Z := 512.
Definition D3D12_DEFAULT_SHADER_4_COMPONENT_MAPPING : Z := 5768.
Definition D3D12_HEAP_FLAG_NONE : Z := 0.
Definition D3D12_DSV_FLAG_NONE : Z := 0.

Inductive D3D12_HEAP_TYPE :=
| D3D12_HEAP_TYPE_DEFAULT | D3D12_HEAP_TYPE_UPLOAD
| D3D12_HEAP_TYPE_READBACK | D3D12_HEAP_TYPE_CUSTOM.

Inductive D3D12_RESOURCE_DIMENSION :=
| D3D12_RESOURCE_DIMENSION_UNKNOWN | D3D12_RESOURCE_DIMENSION_BUFFER
| D3D12_RESOURCE_DIMENSION_TEXTURE1D | D3D12_RESOURCE_DIMENSION_TEXTURE2D
| D3D12_RESOURCE_DIMENSION_TEXTURE3D.

Inductive D3D12_TEXTURE_LAYOUT :=
| D3D12_TEXTURE_LAYOUT_UNKNOWN | D3D12_TEXTURE_LAYOUT_ROW_MAJOR.

(** The view dimension of a shader-resource, render-target or depth-stencil
    view description; the file only selects between these two. *)
Inductive ViewDimension := TEXTURE2D | TEXTURE2DMS.

Inductive D3D12_TEXTURE_COPY_TYPE :=
| D3D12_TEXTURE_COPY_TYPE_SUBRESOURCE_INDEX
| D3D12_TEXTURE_COPY_TYPE_PLACED_FOOTPRINT.

Record D3D12_RESOURCE_DESC := {
  Dimension : D3D12_RESOURCE_DIMENSION;
  Alignment : Z;
  Width : Z;                 (* UINT64 *)
  Height : Z;                (* UINT *)
  DepthOrArraySize : Z;      (* UINT16 *)
  MipLevels : Z;             (* UINT16 *)
  Format : DXGI_FORMAT;
  SampleDesc_Count : Z;
  SampleDesc_Quality : Z;
  Layout : D3D12_TEXTURE_LAYOUT;
  Flags : D3D12_RESOURCE_FLAGS
}.

Record D3D12_CLEAR_VALUE := { clear_Format : DXGI_FORMAT }.

Record D3D12_SHADER_RESOURCE_VIEW_DESC := {
  srv_Format : DXGI_FORMAT;
  srv_ViewDimension : ViewDimension;
  srv_Shader4ComponentMapping : Z;
  srv_Texture2D_MipLevels : Z
}.

Record D3D12_RENDER_TARGET_VIEW_DESC := {
  rtv_Format : DXGI_FORMAT;
  rtv_ViewDimension : ViewDimension
}.

Record D3D12_DEPTH_STENCIL_VIEW_DESC := {
  dsv_Format : DXGI_FORMAT;
  dsv_ViewDimension : ViewDimension;
  dsv_Flags : Z
}.

(** An [ID3D12Resource] object: its identity and the description that
    [GetDesc] reads back.  A [ComPtr] is such an object or null. *)
Record ID3D12Resource := {
  res_id : Z;
  res_desc : D3D12_RESOURCE_DESC
}.
Definition ComPtr := option ID3D12Resource.

Record D3D12_PLACED_FOOTPRINT := {
  fp_Offset : Z;
  fp_Width : Z;
  fp_Height : Z;
  fp_Depth : Z;
  fp_RowPitch : Z;
  fp_Format : DXGI_FORMAT
}.

Record D3D12_TEXTURE_COPY_LOCATION := {
  pResource : ComPtr;
  copy_Type : D3D12_TEXTURE_COPY_TYPE;
  SubresourceIndex : Z;
  PlacedFootprint : option D3D12_PLACED_FOOTPRINT
}.

Record D3D12_BOX := {
  box_left : Z; box_top : Z; box_front : Z;
  box_right : Z; box_bottom : Z; box_back : Z
}.

(** ** Types of the repository's own headers *)

(** [GPUTexture::Format], in the order the mapping table of texture.cpp
    lists the native encodings ([Count] is the number of formats). *)
Inductive GPUFormat := Unknown | RGBA8 | BGRA8 | RGB565 | RGBA5551 | R8 | D16.

Definition Format_Count : Z := 7.

Definition Format_to_u8 (f : GPUFormat) : Z :=
  match f with
  | Unknown => 0 | RGBA8 => 1 | BGRA8 => 2 | RGB565 => 3
  | RGBA5551 => 4 | R8 => 5 | D16 => 6
  end.

(** [static_cast<Format>(i)] for an index of the table. *)
Definition Format_of_index (i : nat) : GPUFormat :=
  match i with
  | 0 => Unknown | 1 => RGBA8 | 2 => BGRA8 | 3 => RGB565
  | 4 => RGBA5551 | 5 => R8 | _ => D16
  end%nat.

(** A descriptor slot of one of the pooled heaps (descriptor_heap_manager.h);
    [{}] is the empty handle. *)
Record DescriptorHandle := {
  cpu_handle : Z;
  gpu_handle : Z;
  index : Z
}.
Definition INVALID_INDEX : Z := 4294967295.
Definition DescriptorHandle_empty : DescriptorHandle :=
  {| cpu_handle := 0; gpu_handle := 0; index := INVALID_INDEX |}.

(** The three descriptor heap managers of the context. *)
Inductive Heap := DescriptorHeap | RTVHeap | DSVHeap.

Definition CommandList := Z.

(** What gpu_texture.h declares and texture.cpp uses: the fixed maxima of
    the dimensions and the size of a pixel of each format. *)
Class GPUTextureDecls := {
  MAX_WIDTH : Z;
  MAX_HEIGHT : Z;
  MAX_LAYERS : Z;
  MAX_LEVELS : Z;
  MAX_SAMPLES : Z;
  GetPixelSize : GPUFormat -> Z
}.

(** ** Calls to the collaborators *)

Inductive Call : Type -> Type :=
(* log.h *)
| Log_ErrorPrintf (fmt : string) (args : list Z) : Call unit
| Log_PerfPrintf (fmt : string) (args : list Z) : Call unit
(* ID3D12Device, reached through g_d3d12_context->GetDevice() *)
| CreateCommittedResource (heap : D3D12_HEAP_TYPE) (heap_flags : Z)
    (desc : D3D12_RESOURCE_DESC) (state : D3D12_RESOURCE_STATES)
    (clear : option D3D12_CLEAR_VALUE) : Call (HRESULT + ID3D12Resource)
| CreateShaderResourceView (resource : ID3D12Resource)
    (desc : D3D12_SHADER_RESOURCE_VIEW_DESC) (dest : Z) : Call unit
| CreateRenderTargetView (resource : ID3D12Resource)
    (desc : D3D12_RENDER_TARGET_VIEW_DESC) (dest : Z) : Call unit
| CreateDepthStencilView (resource : ID3D12Resource)
    (desc : D3D12_DEPTH_STENCIL_VIEW_DESC) (dest : Z) : Call unit
(* ComPtr: dropping a reference to a resource *)
| Release (resource : ID3D12Resource) : Call unit
(* DescriptorHeapManager *)
| Allocate (heap : Heap) : Call (option DescriptorHandle)
| Free (heap : Heap) (dh : DescriptorHandle) : Call DescriptorHandle
(* Context *)
| DeferDescriptorDestruction (heap : Heap) (dh : DescriptorHandle)
    : Call DescriptorHandle
| DeferResourceDestruction (resource : ComPtr) : Call unit
| GetCommandList : Call CommandList
| ExecuteCommandList (wait_for_completion : bool) : Call unit
(* util.h and ID3D12GraphicsCommandList *)
| ResourceBarrier (cmdlist : CommandList) (resource : ComPtr)
    (from to : D3D12_RESOURCE_STATES) : Call unit
| CopyTextureRegion (cmdlist : CommandList) (dst : D3D12_TEXTURE_COPY_LOCATION)
    (x y z : Z) (src : D3D12_TEXTURE_COPY_LOCATION) (box : D3D12_BOX) : Call unit
(* StreamBuffer, reached through g_d3d12_context->GetTextureStreamBuffer() *)
| ReserveMemory (size alignment : Z) : Call bool
| GetCurrentHostPointer : Call Z
| GetCurrentOffset : Call Z
| CommitMemory (size : Z) : Call unit
| GetBuffer : Call ComPtr
| GetSize : Call Z
(* StagingTexture: the local object [st] of LoadData *)
| StagingTexture_Create (width height : Z) (format : DXGI_FORMAT)
    (for_uploading : bool) : Call bool
| StagingTexture_WritePixels (x y width height : Z) (data : Z) (pitch : Z)
    : Call bool
| StagingTexture_CopyToTexture (src_x src_y : Z) (dst : ComPtr)
    (dst_subresource dst_x dst_y width height : Z) : Call unit
| StagingTexture_Destroy (defer : bool) : Call unit
| StagingTexture_dtor : Call unit.

(** ** Programs over the calls *)

Inductive Prog (A : Type) : Type :=
| Ret (a : A)
| Panic (msg : string)
| Vis {X : Type} (c : Call X) (k : X -> Prog A).
Arguments Ret {A} a.
Arguments Panic {A} msg.
Arguments Vis {A X} c k.

Fixpoint bind {A B : Type} (p : Prog A) (f : A -> Prog B) : Prog B :=
  match p with
  | Ret a => f a
  | Panic msg => Panic msg
  | Vis c k => Vis c (fun x => bind (k x) f)
  end.

Definition call {X : Type} (c : Call X) : Prog X := Vis c Ret.

Declare Scope prog_scope.
Delimit Scope prog_scope with prog.
Notation "x <- p ;; q" := (bind p (fun x => q))
  (at level 61, p at next level, right associativity) : prog_scope.
Notation "' pat <- p ;; q" := (bind p (fun x => match x with pat => q end))
  (at level 61, pat pattern, p at next level, right associativity) : prog_scope.
Notation "p ;; q" := (bind p (fun _ => q))
  (at level 61, right associativity) : prog_scope.
Local Open Scope prog_scope.

(** Modelled from the spec: the [Assert] macro comes from assert.h, which is
    not among the sources; the spec says that the caller contract on the two
    auxiliary view formats is enforced by an assertion.  A failed assertion
    stops the program: the call does not return. *)
Definition Assert (b : bool) (msg : string) : Prog unit :=
  if b then Ret tt else Panic msg.

(** A call together with the answer it got. *)
Record Event := Ev {
  ev_type : Type;
  ev_call : Call ev_type;
  ev_ret : ev_type
}.
Arguments Ev {ev_type} ev_call ev_ret.

Inductive Outcome (A : Type) : Type :=
| Returned (a : A)
| Aborted (msg : string).
Arguments Returned {A} a.
Arguments Aborted {A} msg.

(** A handler answers every call, threading a state of its own. *)
Definition Handler (W : Type) := forall X : Type, Call X -> W -> X * W.

Record Run (W A : Type) := MkRun {
  outcome : Outcome A;
  world : W;
  trace : list Event
}.
Arguments MkRun {W A}.
Arguments outcome {W A}.
Arguments world {W A}.
Arguments trace {W A}.

Fixpoint run {W A : Type} (h : Handler W) (p : Prog A) (w : W) : Run W A :=
  match p with
  | Ret a => MkRun (Returned a) w []
  | Panic msg => MkRun (Aborted msg) w []
  | Vis c k =>
      let r := h _ c w in
      let r' := run h (k (fst r)) (snd r) in
      MkRun (outcome r') (world r') (Ev c (fst r) :: trace r')
  end.

(** ** The texture object *)

Record Texture := {
  (* GPUTexture *)
  m_width : Z;               (* u16 *)
  m_height : Z;              (* u16 *)
  m_layers : Z;              (* u8 *)
  m_levels : Z;              (* u8 *)
  m_samples : Z;             (* u8 *)
  m_format : GPUFormat;
  (* D3D12::Texture *)
  m_resource : ComPtr;
  m_srv_descriptor : DescriptorHandle;
  m_rtv_or_dsv_descriptor : DescriptorHandle;
  m_state : D3D12_RESOURCE_STATES;   (* mutable *)
  m_is_depth_view : bool
}.

Definition set_state (s : D3D12_RESOURCE_STATES) (t : Texture) : Texture :=
  {| m_width := m_width t; m_height := m_height t; m_layers := m_layers t;
     m_levels := m_levels t; m_samples := m_samples t; m_format := m_format t;
     m_resource := m_resource t; m_srv_descriptor := m_srv_descriptor t;
     m_rtv_or_dsv_descriptor := m_rtv_or_dsv_descriptor t;
     m_state := s; m_is_depth_view := m_is_depth_view t |}.

Definition set_is_depth_view (b : bool) (t : Texture) : Texture :=
  {| m_width := m_width t; m_height := m_height t; m_layers := m_layers t;
     m_levels := m_levels t; m_samples := m_samples t; m_format := m_format t;
     m_resource := m_resource t; m_srv_descriptor := m_srv_descriptor t;
     m_rtv_or_dsv_descriptor := m_rtv_or_dsv_descriptor t;
     m_state := m_state t; m_is_depth_view := b |}.

(** Modelled from the spec: [GPUTexture::ClearBaseProperties] is defined in
    gpu_texture.h, which is not among the sources; the spec calls its effect
    the zeroed base properties of the canonical empty state (zero dimensions,
    no format). *)
Definition ClearBaseProperties (t : Texture) : Texture :=
  {| m_width := 0; m_height := 0; m_layers := 0; m_levels := 0; m_samples := 0;
     m_format := Unknown;
     m_resource := m_resource t; m_srv_descriptor := m_srv_descriptor t;
     m_rtv_or_dsv_descriptor := m_rtv_or_dsv_descriptor t;
     m_state := m_state t; m_is_depth_view := m_is_depth_view t |}.

(** Modelled from the spec: [Texture() = default] takes the in-class
    initialisers of texture.h and gpu_texture.h, which are not among the
    sources; the spec's canonical empty state is a null resource, no
    descriptors, zero dimensions, the default (common) usage-state and a
    depth-view flag that is false. *)
Definition Texture_default : Texture :=
  {| m_width := 0; m_height := 0; m_layers := 0; m_levels := 0; m_samples := 0;
     m_format := Unknown;
     m_resource := None;
     m_srv_descriptor := DescriptorHandle_empty;
     m_rtv_or_dsv_descriptor := DescriptorHandle_empty;
     m_state := D3D12_RESOURCE_STATE_COMMON;
     m_is_depth_view := false |}.

Definition IsValid (t : Texture) : bool :=
  match m_resource t with Some _ => true | None => false end.

(** [static constexpr std::array<DXGI_FORMAT, Count> s_dxgi_mapping]. *)
Definition s_dxgi_mapping : list DXGI_FORMAT :=
  [DXGI_FORMAT_UNKNOWN; DXGI_FORMAT_R8G8B8A8_UNORM; DXGI_FORMAT_B8G8R8A8_UNORM;
   DXGI_FORMAT_B5G6R5_UNORM; DXGI_FORMAT_B5G5R5A1_UNORM; DXGI_FORMAT_R8_UNORM;
   DXGI_FORMAT_D16_UNORM].

Definition GetDXGIFormat (format : GPUFormat) : DXGI_FORMAT :=
  nth (Z.to_nat (U.u8 (Format_to_u8 format))) s_dxgi_mapping DXGI_FORMAT_UNKNOWN.

(** The loop of [LookupBaseFormat], from index [i] over the rest of the table. *)
Fixpoint LookupBaseFormat_from (i : nat) (table : list DXGI_FORMAT)
    (dformat : DXGI_FORMAT) : GPUFormat :=
  match table with
  | [] => Unknown
  | d :: rest =>
      if d =? dformat then Format_of_index i
      else LookupBaseFormat_from (S i) rest dformat
  end.

Definition LookupBaseFormat (dformat : DXGI_FORMAT) : GPUFormat :=
  LookupBaseFormat_from 0 s_dxgi_mapping dformat.

(** Modelled from the spec: [Common::AlignUpPow2] is defined in align.h,
    which is not among the sources; the spec says the value is rounded up to
    the alignment.  Here at the type [u32] of its callers: add the alignment
    less one, clear the low bits. *)
Definition AlignUpPow2 (value alignment : Z) : Z :=
  Z.land (U.add32 value (U.u32 (alignment - 1)))
         (U.u32 (Z.lnot (U.u32 (alignment - 1)))).

(** A [ComPtr] that lets go of what it holds. *)
Definition ComPtr_Release (p : ComPtr) : Prog unit :=
  match p with
  | Some r => call (Release r)
  | None => Ret tt
  end.

Definition neqb (a b : Z) : bool := negb (a =? b).

(** ** Host memory and the row copy *)

Definition Memory := Z -> byte.

(** [std::memcpy] between two objects that do not overlap: the source is
    read from [src_mem], the destination is an update of [dst_mem]. *)
Definition memcpy (dst_mem : Memory) (dst : Z) (src_mem : Memory) (src : Z)
    (n : Z) : Memory :=
  fun a => if (dst <=? a) && (a <? dst + n)
           then src_mem (src + (a - dst)) else dst_mem a.

(** The [for] loop of [CopyToUploadBuffer] with [rows] iterations left. *)
Fixpoint copy_rows (rows : nat) (src_mem : Memory) (src_ptr src_pitch : Z)
    (dst_mem : Memory) (dst_ptr dst_pitch copy_size : Z) : Memory :=
  match rows with
  | O => dst_mem
  | S rows' =>
      copy_rows rows' src_mem (src_ptr + src_pitch) src_pitch
        (memcpy dst_mem dst_ptr src_mem src_ptr copy_size)
        (dst_ptr + dst_pitch) dst_pitch copy_size
  end.

Definition CopyToUploadBuffer (src_mem : Memory) (src_data src_pitch height : Z)
    (dst_mem : Memory) (dst_data dst_pitch : Z) : Memory :=
  if src_pitch =? dst_pitch then
    memcpy dst_mem dst_data src_mem src_data (U.mul32 dst_pitch height)
  else
    copy_rows (Z.to_nat height) src_mem src_data src_pitch
      dst_mem dst_data dst_pitch (Z.min src_pitch dst_pitch).

(** ** The methods of [D3D12::Texture] *)

Section Methods.
Context `{GPUTextureDecls}.

(** *** Descriptor creation *)

Definition CreateSRVDescriptor (resource : ID3D12Resource) (format : DXGI_FORMAT)
    (multisampled : bool) (dh : DescriptorHandle)
    : Prog (bool * DescriptorHandle) :=
  a <- call (Allocate DescriptorHeap) ;;
  match a with
  | None =>
      call (Log_ErrorPrintf "Failed to allocate SRV descriptor" []) ;;
      Ret (false, dh)
  | Some dh' =>
      let desc :=
        {| srv_Format := format;
           srv_ViewDimension := if multisampled then TEXTURE2DMS else TEXTURE2D;
           srv_Shader4ComponentMapping := D3D12_DEFAULT_SHADER_4_COMPONENT_MAPPING;
           srv_Texture2D_MipLevels := if multisampled then 0 else 1 |} in
      call (CreateShaderResourceView resource desc (cpu_handle dh')) ;;
      Ret (true, dh')
  end.

Definition CreateRTVDescriptor (resource : ID3D12Resource) (format : DXGI_FORMAT)
    (multisampled : bool) (dh : DescriptorHandle)
    : Prog (bool * DescriptorHandle) :=
  a <- call (Allocate RTVHeap) ;;
  match a with
  | None =>
      call (Log_ErrorPrintf "Failed to allocate SRV descriptor" []) ;;
      Ret (false, dh)
  | Some dh' =>
      let desc :=
        {| rtv_Format := format;
           rtv_ViewDimension := if multisampled then TEXTURE2DMS else TEXTURE2D |} in
      call (CreateRenderTargetView resource desc (cpu_handle dh')) ;;
      Ret (true, dh')
  end.

Definition CreateDSVDescriptor (resource : ID3D12Resource) (format : DXGI_FORMAT)
    (multisampled : bool) (dh : DescriptorHandle)
    : Prog (bool * DescriptorHandle) :=
  a <- call (Allocate DSVHeap) ;;
  match a with
  | None =>
      call (Log_ErrorPrintf "Failed to allocate SRV descriptor" []) ;;
      Ret (false, dh)
  | Some dh' =>
      let desc :=
        {| dsv_Format := format;
           dsv_ViewDimension := if multisampled then TEXTURE2DMS else TEXTURE2D;
           dsv_Flags := D3D12_DSV_FLAG_NONE |} in
      call (CreateDepthStencilView resource desc (cpu_handle dh')) ;;
      Ret (true, dh')
  end.

(** *** Destroy *)

Definition Destroy (defer : bool) (this : Texture) : Prog Texture :=
  '(srv, rtv) <-
    (if defer then
       srv <- call (DeferDescriptorDestruction DescriptorHeap
                      (m_srv_descriptor this)) ;;
       rtv <- call (DeferDescriptorDestruction
                      (if m_is_depth_view this then DSVHeap else RTVHeap)
                      (m_rtv_or_dsv_descriptor this)) ;;
       call (DeferResourceDestruction (m_resource this)) ;;
       ComPtr_Release (m_resource this) ;;
       Ret (srv, rtv)
     else
       srv <- call (Free DescriptorHeap (m_srv_descriptor this)) ;;
       rtv <- call (Free (if m_is_depth_view this then DSVHeap else RTVHeap)
                      (m_rtv_or_dsv_descriptor this)) ;;
       ComPtr_Release (m_resource this) ;;
       Ret (srv, rtv)) ;;
  Ret {| m_width := 0; m_height := 0; m_layers := 0; m_levels := 0;
         m_samples := 0; m_format := Unknown;
         m_resource := None;
         m_srv_descriptor := srv;
         m_rtv_or_dsv_descriptor := rtv;
         m_state := m_state this;
         m_is_depth_view := false |}.

(** *** Create *)

(** The tail of [Create] once every allocation has succeeded: the old
    contents go to the deferred path, then the fields are assigned. *)
Definition Create_commit (width height layers levels samples : Z)
    (format : DXGI_FORMAT) (state : D3D12_RESOURCE_STATES)
    (resource : ID3D12Resource) (srv_descriptor rtv_descriptor : DescriptorHandle)
    (is_depth_view : bool) (this : Texture) : Prog (bool * Texture) :=
  this' <- Destroy true this ;;
  ComPtr_Release (m_resource this') ;;
  Ret (true,
       {| m_width := U.u16 width; m_height := U.u16 height;
          m_layers := U.u8 layers; m_levels := U.u8 levels;
          m_samples := U.u8 samples; m_format := LookupBaseFormat format;
          m_resource := Some resource;
          m_srv_descriptor := srv_descriptor;
          m_rtv_or_dsv_descriptor := rtv_descriptor;
          m_state := state;
          m_is_depth_view := is_depth_view |}).

Definition Create (width height layers levels samples : Z)
    (format srv_format rtv_format dsv_format : DXGI_FORMAT)
    (flags : D3D12_RESOURCE_FLAGS) (this : Texture) : Prog (bool * Texture) :=
  if (width >? MAX_WIDTH) || (height >? MAX_HEIGHT) || (layers >? MAX_LAYERS)
     || (levels >? MAX_LEVELS) || (samples >? MAX_SAMPLES)
  then
    call (Log_ErrorPrintf "Invalid dimensions: %ux%ux%u %u %u"
            [width; height; layers; levels; samples]) ;;
    Ret (false, this)
  else
    let desc :=
      {| Dimension := D3D12_RESOURCE_DIMENSION_TEXTURE2D;
         Alignment := 0;
         Width := width;
         Height := U.u16 height;
         DepthOrArraySize := U.u16 layers;
         MipLevels := U.u16 levels;
         Format := format;
         SampleDesc_Count := samples;
         SampleDesc_Quality := 0;
         Layout := D3D12_TEXTURE_LAYOUT_UNKNOWN;
         Flags := flags |} in
    let optimized_clear_value :=
      {| clear_Format :=
           if neqb rtv_format DXGI_FORMAT_UNKNOWN then rtv_format
           else if neqb dsv_format DXGI_FORMAT_UNKNOWN then dsv_format
           else DXGI_FORMAT_UNKNOWN |} in
    let state :=
      if neqb rtv_format DXGI_FORMAT_UNKNOWN
      then D3D12_RESOURCE_STATE_RENDER_TARGET
      else if neqb dsv_format DXGI_FORMAT_UNKNOWN
      then D3D12_RESOURCE_STATE_DEPTH_WRITE
      else D3D12_RESOURCE_STATE_PIXEL_SHADER_RESOURCE in
    r <- call (CreateCommittedResource D3D12_HEAP_TYPE_DEFAULT
                 D3D12_HEAP_FLAG_NONE desc state
                 (if neqb rtv_format DXGI_FORMAT_UNKNOWN
                     || neqb dsv_format DXGI_FORMAT_UNKNOWN
                  then Some optimized_clear_value else None)) ;;
    match r with
    | inl hr =>
        call (Log_ErrorPrintf "Create texture failed: 0x%08X" [hr]) ;;
        Ret (false, this)
    | inr resource =>
        '(srv_ok, srv_descriptor) <-
          (if neqb srv_format DXGI_FORMAT_UNKNOWN
           then CreateSRVDescriptor resource srv_format (samples >? 1)
                  DescriptorHandle_empty
           else Ret (true, DescriptorHandle_empty)) ;;
        if negb srv_ok then
          call (Release resource) ;; Ret (false, this)
        else if neqb rtv_format DXGI_FORMAT_UNKNOWN then
          Assert (dsv_format =? DXGI_FORMAT_UNKNOWN)
            "dsv_format == DXGI_FORMAT_UNKNOWN" ;;
          '(ok, rtv_descriptor) <-
            CreateRTVDescriptor resource rtv_format (samples >? 1)
              DescriptorHandle_empty ;;
          if negb ok then
            call (Free DescriptorHeap srv_descriptor) ;;
            call (Release resource) ;;
            Ret (false, this)
          else
            Create_commit width height layers levels samples format state
              resource srv_descriptor rtv_descriptor false this
        else if neqb dsv_format DXGI_FORMAT_UNKNOWN then
          '(ok, rtv_descriptor) <-
            CreateDSVDescriptor resource dsv_format (samples >? 1)
              DescriptorHandle_empty ;;
          if negb ok then
            call (Free DescriptorHeap srv_descriptor) ;;
            call (Release resource) ;;
            Ret (false, this)
          else
            Create_commit width height layers levels samples format state
              resource srv_descriptor rtv_descriptor true this
        else
          Create_commit width height layers levels samples format state
            resource srv_descriptor DescriptorHandle_empty false this
    end.

(** *** Adopt *)

(** The by-value [ComPtr] parameter holds a resource ([texture->GetDesc()]
    is called on it first); a failing return drops that reference. *)
Definition Adopt (texture : ID3D12Resource)
    (srv_format rtv_format dsv_format : DXGI_FORMAT)
    (state : D3D12_RESOURCE_STATES) (this : Texture) : Prog (bool * Texture) :=
  let desc := res_desc texture in
  let commit (srv_descriptor rtv_descriptor : DescriptorHandle)
             (this : Texture) : Prog (bool * Texture) :=
    ComPtr_Release (m_resource this) ;;
    Ret (true,
         {| m_width := U.u16 (Width desc); m_height := U.u16 (Height desc);
            m_layers := U.u8 (DepthOrArraySize desc);
            m_levels := U.u8 (MipLevels desc);
            m_samples := U.u8 (SampleDesc_Count desc);
            m_format := LookupBaseFormat (Format desc);
            m_resource := Some texture;
            m_srv_descriptor := srv_descriptor;
            m_rtv_or_dsv_descriptor := rtv_descriptor;
            m_state := state;
            m_is_depth_view := m_is_depth_view this |}) in
  '(srv_ok, srv_descriptor) <-
    (if neqb srv_format DXGI_FORMAT_UNKNOWN
     then CreateSRVDescriptor texture srv_format (SampleDesc_Count desc >? 1)
            DescriptorHandle_empty
     else Ret (true, DescriptorHandle_empty)) ;;
  if negb srv_ok then
    call (Release texture) ;; Ret (false, this)
  else
    let this := set_is_depth_view false this in
    if neqb rtv_format DXGI_FORMAT_UNKNOWN then
      Assert (dsv_format =? DXGI_FORMAT_UNKNOWN)
        "dsv_format == DXGI_FORMAT_UNKNOWN" ;;
      '(ok, rtv_descriptor) <-
        CreateRTVDescriptor texture rtv_format (SampleDesc_Count desc >? 1)
          DescriptorHandle_empty ;;
      if negb ok then
        call (Free DescriptorHeap srv_descriptor) ;;
        call (Release texture) ;;
        Ret (false, this)
      else commit srv_descriptor rtv_descriptor this
    else if neqb dsv_format DXGI_FORMAT_UNKNOWN then
      '(ok, rtv_descriptor) <-
        CreateDSVDescriptor texture dsv_format (SampleDesc_Count desc >? 1)
          DescriptorHandle_empty ;;
      if negb ok then
        call (Free DescriptorHeap srv_descriptor) ;;
        call (Release texture) ;;
        Ret (false, this)
      else commit srv_descriptor rtv_descriptor (set_is_depth_view true this)
    else commit srv_descriptor DescriptorHandle_empty this.

(** *** Usage-state tracking *)

Definition TransitionToState (state : D3D12_RESOURCE_STATES) (this : Texture)
    : Prog Texture :=
  if m_state this =? state then Ret this
  else
    cmdlist <- call GetCommandList ;;
    call (ResourceBarrier cmdlist (m_resource this) (m_state this) state) ;;
    Ret (set_state state this).

(** *** Streaming upload *)

(** The result stands for the returned [bool] and the two out-parameters,
    which are written only when the call returns true. *)
Definition BeginStreamUpdate (x y width height : Z) (this : Texture)
    : Prog (option (Z * Z)) :=
  let copy_pitch :=
    AlignUpPow2 (U.mul32 width (GetPixelSize (m_format this)))
      D3D12_TEXTURE_DATA_PITCH_ALIGNMENT in
  let upload_size := U.mul32 copy_pitch height in
  let finish : Prog (option (Z * Z)) :=
    out_data <- call GetCurrentHostPointer ;;
    Ret (Some (out_data, copy_pitch)) in
  ok <- call (ReserveMemory upload_size D3D12_TEXTURE_DATA_PLACEMENT_ALIGNMENT) ;;
  if negb ok then
    call (Log_PerfPrintf
            "Executing command buffer while waiting for %u bytes (%ux%u) in upload buffer"
            [upload_size; width; height]) ;;
    call (ExecuteCommandList false) ;;
    ok' <- call (ReserveMemory upload_size
                   D3D12_TEXTURE_DATA_PLACEMENT_ALIGNMENT) ;;
    if negb ok' then
      call (Log_ErrorPrintf "Failed to reserve %u bytes for %ux%u upload"
              [upload_size; width; height]) ;;
      Ret None
    else finish
  else finish.

Definition CopyFromBuffer (x y width height pitch : Z) (buffer : ComPtr)
    (buffer_offset : Z) (this : Texture) : Prog Texture :=
  let src :=
    {| pResource := buffer;
       copy_Type := D3D12_TEXTURE_COPY_TYPE_PLACED_FOOTPRINT;
       SubresourceIndex := 0;
       PlacedFootprint :=
         Some {| fp_Offset := buffer_offset; fp_Width := width;
                 fp_Height := height; fp_Depth := 1; fp_RowPitch := pitch;
                 fp_Format := GetDXGIFormat (m_format this) |} |} in
  let dst :=
    {| pResource := m_resource this;
       copy_Type := D3D12_TEXTURE_COPY_TYPE_SUBRESOURCE_INDEX;
       SubresourceIndex := 0;
       PlacedFootprint := None |} in
  let src_box :=
    {| box_left := 0; box_top := 0; box_front := 0;
       box_right := width; box_bottom := height; box_back := 1 |} in
  let old_state := m_state this in
  this <- TransitionToState D3D12_RESOURCE_STATE_COPY_DEST this ;;
  cmdlist <- call GetCommandList ;;
  call (CopyTextureRegion cmdlist dst x y 0 src src_box) ;;
  TransitionToState old_state this.

Definition EndStreamUpdate (x y width height : Z) (this : Texture)
    : Prog Texture :=
  let copy_pitch :=
    AlignUpPow2 (U.mul32 width (GetPixelSize (m_format this)))
      D3D12_TEXTURE_DATA_PITCH_ALIGNMENT in
  let upload_size := U.mul32 copy_pitch height in
  sb_offset <- call GetCurrentOffset ;;
  call (CommitMemory upload_size) ;;
  buffer <- call GetBuffer ;;
  CopyFromBuffer x y width height copy_pitch buffer sb_offset this.

(** *** LoadData *)

(** [data] points into the caller's memory [src_mem]; [host] is the
    host-visible memory the stream buffer hands out. *)
Definition LoadData (x y width height : Z) (src_mem : Memory) (data pitch : Z)
    (this : Texture) (host : Memory) : Prog (bool * Texture * Memory) :=
  let texel_size := GetPixelSize (m_format this) in
  let upload_pitch :=
    AlignUpPow2 (U.mul32 width texel_size) D3D12_TEXTURE_DATA_PITCH_ALIGNMENT in
  let upload_size := U.mul32 upload_pitch height in
  size <- call GetSize ;;
  if upload_size >=? size then
    created <- call (StagingTexture_Create width height
                       (GetDXGIFormat (m_format this)) true) ;;
    written <- (if created
                then call (StagingTexture_WritePixels 0 0 width height data pitch)
                else Ret false) ;;
    if negb created || negb written then
      call StagingTexture_dtor ;;
      Ret (false, this, host)
    else
      let old_state := m_state this in
      this <- TransitionToState D3D12_RESOURCE_STATE_COPY_DEST this ;;
      call (StagingTexture_CopyToTexture 0 0 (m_resource this) 0 x y
              width height) ;;
      call (StagingTexture_Destroy true) ;;
      this <- TransitionToState old_state this ;;
      call StagingTexture_dtor ;;
      Ret (true, this, host)
  else
    r <- BeginStreamUpdate x y width height this ;;
    match r with
    | None => Ret (false, this, host)
    | Some (write_ptr, write_pitch) =>
        let host :=
          CopyToUploadBuffer src_mem data pitch height host write_ptr
            write_pitch in
        this <- EndStreamUpdate x y width height this ;;
        Ret (true, this, host)
    end.

(** *** Moves *)

(** [Texture(Texture&& texture)]: the new object and what is left of the
    source.  Members outside the initialiser list and the body keep their
    defaults. *)
Definition Texture_move (texture : Texture) : Texture * Texture :=
  let this :=
    {| m_width := m_width texture; m_height := m_height texture;
       m_layers := m_layers texture; m_levels := m_levels texture;
       m_samples := m_samples texture;
       m_format := m_format Texture_default;
       m_resource := m_resource texture;
       m_srv_descriptor := m_srv_descriptor texture;
       m_rtv_or_dsv_descriptor := m_rtv_or_dsv_descriptor texture;
       m_state := m_state Texture_default;
       m_is_depth_view := m_is_depth_view texture |} in
  let texture :=
    ClearBaseProperties
      {| m_width := m_width texture; m_height := m_height texture;
         m_layers := m_layers texture; m_levels := m_levels texture;
         m_samples := m_samples texture; m_format := m_format texture;
         m_resource := None;
         m_srv_descriptor := DescriptorHandle_empty;
         m_rtv_or_dsv_descriptor := DescriptorHandle_empty;
         m_state := D3D12_RESOURCE_STATE_COMMON;
         m_is_depth_view := false |} in
  (this, texture).

(** [operator=(Texture&& texture)] on two distinct objects: the assigned
    object and what is left of the source. *)
Definition Texture_move_assign (this texture : Texture)
    : Prog (Texture * Texture) :=
  this <- Destroy true this ;;
  ComPtr_Release (m_resource this) ;;
  let this :=
    {| m_width := m_width texture; m_height := m_height texture;
       m_layers := m_layers texture; m_levels := m_levels texture;
       m_samples := m_samples texture;
       m_format := m_format this;
       m_resource := m_resource texture;
       m_srv_descriptor := m_srv_descriptor texture;
       m_rtv_or_dsv_descriptor := m_rtv_or_dsv_descriptor texture;
       m_state := m_state texture;
       m_is_depth_view := m_is_depth_view texture |} in
  let texture :=
    set_is_depth_view false
      (set_state D3D12_RESOURCE_STATE_COMMON
         (ClearBaseProperties
            {| m_width := m_width texture; m_height := m_height texture;
               m_layers := m_layers texture; m_levels := m_levels texture;
               m_samples := m_samples texture; m_format := m_format texture;
               m_resource := None;
               m_srv_descriptor := DescriptorHandle_empty;
               m_rtv_or_dsv_descriptor := DescriptorHandle_empty;
               m_state := m_state texture;
               m_is_depth_view := m_is_depth_view texture |})) in
  Ret (this, texture).

End Methods.

(** ** Reading a trace *)

Fixpoint collect {A : Type} (f : Event -> option A) (tr : list Event) : list A :=
  match tr with
  | [] => []
  | e :: tr' =>
      match f e with
      | Some a => a :: collect f tr'
      | None => collect f tr'
      end
  end.

(** A call without its answer. *)
Inductive Called : Type :=
| called {X : Type} (c : Call X).

Definition calls (tr : list Event) : list Called :=
  map (fun e => called (ev_call e)) tr.

(** The barrier commands recorded: command list, resource, from, to. *)
Definition barrier_of (e : Event)
    : option (CommandList * ComPtr * D3D12_RESOURCE_STATES * D3D12_RESOURCE_STATES) :=
  match ev_call e with
  | ResourceBarrier cl r from to => Some (cl, r, from, to)
  | _ => None
  end.
Definition barriers := collect barrier_of.

(** What an upload records for the GPU: state transitions and copies. *)
Inductive Cmd :=
| CmdBarrier (from to : D3D12_RESOURCE_STATES)
| CmdCopyTextureRegion (x y : Z)
| CmdStagingCopy (x y : Z).

Definition cmd_of (e : Event) : option Cmd :=
  match ev_call e with
  | ResourceBarrier _ _ from to => Some (CmdBarrier from to)
  | CopyTextureRegion _ _ x y _ _ _ => Some (CmdCopyTextureRegion x y)
  | StagingTexture_CopyToTexture _ _ _ _ x y _ _ => Some (CmdStagingCopy x y)
  | _ => None
  end.
Definition cmds := collect cmd_of.

(** The traffic with the stream buffer that the retry rule is about. *)
Inductive StreamOp :=
| OpReserve (size alignment : Z) (ok : bool)
| OpSubmit (wait_for_completion : bool).

Definition stream_op_of (e : Event) : option StreamOp :=
  match e with
  | Ev c r =>
      match c in Call X return X -> option StreamOp with
      | ReserveMemory size alignment => fun ok => Some (OpReserve size alignment ok)
      | ExecuteCommandList wait => fun _ => Some (OpSubmit wait)
      | _ => fun _ => None
      end r
  end.
Definition stream_ops := collect stream_op_of.

Definition reservation_of (e : Event) : option (Z * Z) :=
  match ev_call e with
  | ReserveMemory size alignment => Some (size, alignment)
  | _ => None
  end.
Definition reservations := collect reservation_of.

(** The calls on the local staging texture, in order. *)
Definition staging_call_of (e : Event) : option Called :=
  match ev_call e with
  | StagingTexture_Create w h f u => Some (called (StagingTexture_Create w h f u))
  | StagingTexture_WritePixels x y w h d p =>
      Some (called (StagingTexture_WritePixels x y w h d p))
  | StagingTexture_CopyToTexture sx sy d s x y w h =>
      Some (called (StagingTexture_CopyToTexture sx sy d s x y w h))
  | StagingTexture_Destroy defer => Some (called (StagingTexture_Destroy defer))
  | StagingTexture_dtor => Some (called StagingTexture_dtor)
  | _ => None
  end.
Definition staging_calls := collect staging_call_of.

(** The arguments of the explicit [Destroy] calls on the staging texture. *)
Definition staging_destroy_of (e : Event) : option bool :=
  match ev_call e with
  | StagingTexture_Destroy defer => Some defer
  | _ => None
  end.
Definition staging_destroys := collect staging_destroy_of.

Definition staging_create_of (e : Event) : option (Z * Z) :=
  match ev_call e with
  | StagingTexture_Create w h _ _ => Some (w, h)
  | _ => None
  end.
Definition staging_creates := collect staging_create_of.

(** Which sub-path of [LoadData] a trace shows: the staging one when a
    staging texture was created, the streaming one when stream-buffer
    memory was reserved. *)
Inductive Route := Streaming | Staging.

Definition route (tr : list Event) : option Route :=
  match staging_creates tr, reservations tr with
  | _ :: _, [] => Some Staging
  | [], _ :: _ => Some Streaming
  | _, _ => None
  end.

(** Descriptor traffic: slots handed out, slots given back at once, and what
    went to the deferred path. *)
Definition allocated_of (e : Event) : option (Heap * DescriptorHandle) :=
  match e with
  | Ev c r =>
      match c in Call X return X -> option (Heap * DescriptorHandle) with
      | Allocate heap => fun a =>
          match a with Some dh => Some (heap, dh) | None => None end
      | _ => fun _ => None
      end r
  end.
Definition allocated := collect allocated_of.

Definition freed_of (e : Event) : option (Heap * DescriptorHandle) :=
  match ev_call e with
  | Free heap dh => Some (heap, dh)
  | _ => None
  end.
Definition freed := collect freed_of.

Inductive Deferred :=
| DeferredDescriptor (heap : Heap) (dh : DescriptorHandle)
| DeferredResource (resource : ComPtr).

Definition deferred_of (e : Event) : option Deferred :=
  match ev_call e with
  | DeferDescriptorDestruction heap dh => Some (DeferredDescriptor heap dh)
  | DeferResourceDestruction r => Some (DeferredResource r)
  | _ => None
  end.
Definition deferred := collect deferred_of.

(** Every attempt to allocate: the native resource or a descriptor slot. *)
Definition allocation_attempt_of (e : Event) : option Called :=
  match ev_call e with
  | CreateCommittedResource a b c d f =>
      Some (called (CreateCommittedResource a b c d f))
  | Allocate heap => Some (called (Allocate heap))
  | _ => None
  end.
Definition allocation_attempts := collect allocation_attempt_of.

(** ** A scripted stand-in for the collaborators

    Used to run the methods on concrete inputs: descriptor heaps with a
    number of free slots, a device that succeeds or fails, a stream buffer
    of a given size whose reservations follow a script, and a staging
    texture whose creation and writes succeed or fail. *)

Module Double.

Record World := {
  sb_size : Z;
  reserve_script : list bool;
  srv_slots : nat;
  rtv_slots : nat;
  dsv_slots : nat;
  device_ok : bool;
  staging_create_ok : bool;
  staging_write_ok : bool;
  next_id : Z
}.

Definition slots (heap : Heap) (w : World) : nat :=
  match heap with
  | DescriptorHeap => srv_slots w
  | RTVHeap => rtv_slots w
  | DSVHeap => dsv_slots w
  end.

Definition with_slots (heap : Heap) (n : nat) (w : World) : World :=
  {| sb_size := sb_size w; reserve_script := reserve_script w;
     srv_slots := match heap with DescriptorHeap => n | _ => srv_slots w end;
     rtv_slots := match heap with RTVHeap => n | _ => rtv_slots w end;
     dsv_slots := match heap with DSVHeap => n | _ => dsv_slots w end;
     device_ok := device_ok w;
     staging_create_ok := staging_create_ok w;
     staging_write_ok := staging_write_ok w;
     next_id := next_id w |}.

Definition with_next (w : World) : World :=
  {| sb_size := sb_size w; reserve_script := reserve_script w;
     srv_slots := srv_slots w; rtv_slots := rtv_slots w;
     dsv_slots := dsv_slots w; device_ok := device_ok w;
     staging_create_ok := staging_create_ok w;
     staging_write_ok := staging_write_ok w;
     next_id := next_id w + 1 |}.

Definition with_script (s : list bool) (w : World) : World :=
  {| sb_size := sb_size w; reserve_script := s;
     srv_slots := srv_slots w; rtv_slots := rtv_slots w;
     dsv_slots := dsv_slots w; device_ok := device_ok w;
     staging_create_ok := staging_create_ok w;
     staging_write_ok := staging_write_ok w;
     next_id := next_id w |}.

Definition E_OUTOFMEMORY : HRESULT := -2147024882.

Definition handler : Handler World :=
  fun X c =>
    match c in Call X return World -> X * World with
    | Log_ErrorPrintf _ _ => fun w => (tt, w)
    | Log_PerfPrintf _ _ => fun w => (tt, w)
    | CreateCommittedResource _ _ desc _ _ => fun w =>
        if device_ok w
        then (inr {| res_id := next_id w; res_desc := desc |}, with_next w)
        else (inl E_OUTOFMEMORY, w)
    | CreateShaderResourceView _ _ _ => fun w => (tt, w)
    | CreateRenderTargetView _ _ _ => fun w => (tt, w)
    | CreateDepthStencilView _ _ _ => fun w => (tt, w)
    | Release _ => fun w => (tt, w)
    | Allocate heap => fun w =>
        match slots heap w with
        | O => (None, w)
        | S n =>
            (Some {| cpu_handle := next_id w; gpu_handle := next_id w;
                     index := next_id w |},
             with_next (with_slots heap n w))
        end
    | Free heap dh => fun w =>
        if index dh =? INVALID_INDEX then (dh, w)
        else (DescriptorHandle_empty, with_slots heap (S (slots heap w)) w)
    | DeferDescriptorDestruction _ dh => fun w => (DescriptorHandle_empty, w)
    | DeferResourceDestruction _ => fun w => (tt, w)
    | GetCommandList => fun w => (1, w)
    | ExecuteCommandList _ => fun w => (tt, w)
    | ResourceBarrier _ _ _ _ => fun w => (tt, w)
    | CopyTextureRegion _ _ _ _ _ _ _ => fun w => (tt, w)
    | ReserveMemory _ _ => fun w =>
        match reserve_script w with
        | [] => (true, w)
        | b :: s => (b, with_script s w)
        end
    | GetCurrentHostPointer => fun w => (0, w)
    | GetCurrentOffset => fun w => (0, w)
    | CommitMemory _ => fun w => (tt, w)
    | GetBuffer => fun w => (None, w)
    | GetSize => fun w => (sb_size w, w)
    | StagingTexture_Create _ _ _ _ => fun w => (staging_create_ok w, w)
    | StagingTexture_WritePixels _ _ _ _ _ _ => fun w => (staging_write_ok w, w)
    | StagingTexture_CopyToTexture _ _ _ _ _ _ _ _ => fun w => (tt, w)
    | StagingTexture_Destroy _ => fun w => (tt, w)
    | StagingTexture_dtor => fun w => (tt, w)
    end.

(** A world in which everything succeeds, with a stream buffer of
    [size] bytes. *)
Definition plentiful (size : Z) : World :=
  {| sb_size := size; reserve_script := [];
     srv_slots := 8; rtv_slots := 8; dsv_slots := 8;
     device_ok := true; staging_create_ok := true; staging_write_ok := true;
     next_id := 100 |}.

(** One choice of what gpu_texture.h declares: 16-bit extents, 8-bit
    counts, and the byte size of a pixel of each format. *)
#[export] Instance decls : GPUTextureDecls := {
  MAX_WIDTH := 65535;
  MAX_HEIGHT := 65535;
  MAX_LAYERS := 255;
  MAX_LEVELS := 255;
  MAX_SAMPLES := 255;
  GetPixelSize f :=
    match f with
    | RGBA8 | BGRA8 => 4
    | RGB565 | RGBA5551 | D16 => 2
    | R8 => 1
    | Unknown => 0
    end
}.

(** A live 256 x 256 RGBA8 texture with a sampled view, in the
    shader-read state. *)
Definition texture_rgba8 : Texture :=
  {| m_width := 256; m_height := 256; m_layers := 1; m_levels := 1;
     m_samples := 1; m_format := RGBA8;
     m_resource := Some {| res_id := 7;
                           res_desc := {| Dimension := D3D12_RESOURCE_DIMENSION_TEXTURE2D;
                                          Alignment := 0; Width := 256; Height := 256;
                                          DepthOrArraySize := 1; MipLevels := 1;
                                          Format := DXGI_FORMAT_R8G8B8A8_UNORM;
                                          SampleDesc_Count := 1; SampleDesc_Quality := 0;
                                          Layout := D3D12_TEXTURE_LAYOUT_UNKNOWN;
                                          Flags := 0 |} |};
     m_srv_descriptor := {| cpu_handle := 40; gpu_handle := 40; index := 40 |};
     m_rtv_or_dsv_descriptor := DescriptorHandle_empty;
     m_state := D3D12_RESOURCE_STATE_PIXEL_SHADER_RESOURCE;
     m_is_depth_view := false |}.

(** A live 64 x 64 depth texture: its second descriptor is a
    depth-stencil view. *)
Definition texture_depth : Texture :=
  {| m_width := 64; m_height := 64; m_layers := 1; m_levels := 1;
     m_samples := 1; m_format := D16;
     m_resource := Some {| res_id := 8;
                           res_desc := {| Dimension := D3D12_RESOURCE_DIMENSION_TEXTURE2D;
                                          Alignment := 0; Width := 64; Height := 64;
                                          DepthOrArraySize := 1; MipLevels := 1;
                                          Format := DXGI_FORMAT_D16_UNORM;
                                          SampleDesc_Count := 1; SampleDesc_Quality := 0;
                                          Layout := D3D12_TEXTURE_LAYOUT_UNKNOWN;
                                          Flags := 0 |} |};
     m_srv_descriptor := DescriptorHandle_empty;
     m_rtv_or_dsv_descriptor := {| cpu_handle := 41; gpu_handle := 41; index := 41 |};
     m_state := D3D12_RESOURCE_STATE_DEPTH_WRITE;
     m_is_depth_view := true |}.

Definition zeros : Memory := fun _ => x00.
Definition ones : Memory := fun _ => x01.

End Double.

(** ** Proof support *)

Lemma set_state_back (t : Texture) (s : D3D12_RESOURCE_STATES) :
  set_state (m_state t) (set_state s t) = t.
Proof. destruct t; reflexivity. Qed.

Lemma set_state_same (t : Texture) : set_state (m_state t) t = t.
Proof. destruct t; reflexivity. Qed.

(** Split on the next answer of the handler, or the next test of the code,
    that the goal is stuck on. *)
Ltac split_step :=
  match goal with
  | |- context [fst (?h bool ?c ?w)] => destruct (fst (h bool c w)) eqn:?
  | |- context [fst (?h (option ?A) ?c ?w)] =>
      destruct (fst (h (option A) c w)) eqn:?
  | |- context [fst (?h (sum ?A ?B) ?c ?w)] =>
      destruct (fst (h (sum A B) c w)) eqn:?
  | |- context [if ?a =? ?b then _ else _] => destruct (Z.eqb_spec a b)
  | |- context [if negb ?b then _ else _] => destruct b eqn:?
  | |- context [if ?b then _ else _] =>
      tryif is_var b then fail else destruct b eqn:?
  end.

Ltac run_all := repeat (cbn; try split_step).

(** ** Usage-state tracking *)

(** C5. TransitionToState(S) records nothing and changes nothing when the
    tracked state already equals S; otherwise it records exactly one
    resource barrier, from the tracked state to S, on the active command
    list, and sets the tracked state to S.  A second call with the same S
    right after then records nothing. *)
Theorem TransitionToState_barrier :
  forall (W : Type) (h : Handler W) (w : W) (S : D3D12_RESOURCE_STATES)
         (t : Texture),
    let r := run h (TransitionToState S t) w in
    (m_state t = S ->
       outcome r = Returned t /\ trace r = [] /\ world r = w) /\
    (m_state t <> S ->
       outcome r = Returned (set_state S t) /\
       barriers (trace r) =
         [(fst (h _ GetCommandList w), m_resource t, m_state t, S)] /\
       calls (trace r) =
         [called GetCommandList;
          called (ResourceBarrier (fst (h _ GetCommandList w)) (m_resource t)
                    (m_state t) S)] /\
       let r' := run h (TransitionToState S (set_state S t)) (world r) in
       outcome r' = Returned (set_state S t) /\ trace r' = []).
Proof.
  intros W h w S t r; subst r; unfold TransitionToState; split; intro Hs.
  - rewrite (proj2 (Z.eqb_eq _ _) Hs). cbn. auto.
  - destruct (Z.eqb_spec (m_state t) S) as [|_]; [contradiction|].
    cbn. rewrite Z.eqb_refl. cbn. auto.
Qed.

(** ** The streaming sub-path: reservation and retry *)

Section Streaming.
Context `{GPUTextureDecls}.

(** The size in bytes that an upload of [width] x [height] pixels reserves,
    as the code computes it. *)
Definition upload_pitch_of (width : Z) (t : Texture) : Z :=
  AlignUpPow2 (U.mul32 width (GetPixelSize (m_format t)))
    D3D12_TEXTURE_DATA_PITCH_ALIGNMENT.
Definition upload_size_of (width height : Z) (t : Texture) : Z :=
  U.mul32 (upload_pitch_of width t) height.

(** The three ways a reservation can go. *)
Inductive Reservation (size : Z) : list StreamOp -> bool -> Prop :=
| reserved_at_once :
    Reservation size
      [OpReserve size D3D12_TEXTURE_DATA_PLACEMENT_ALIGNMENT true] true
| reserved_after_submit :
    Reservation size
      [OpReserve size D3D12_TEXTURE_DATA_PLACEMENT_ALIGNMENT false;
       OpSubmit false;
       OpReserve size D3D12_TEXTURE_DATA_PLACEMENT_ALIGNMENT true] true
| not_reserved :
    Reservation size
      [OpReserve size D3D12_TEXTURE_DATA_PLACEMENT_ALIGNMENT false;
       OpSubmit false;
       OpReserve size D3D12_TEXTURE_DATA_PLACEMENT_ALIGNMENT false] false.

End Streaming.

Arguments CopyToUploadBuffer : simpl never.
Arguments AlignUpPow2 : simpl never.
Arguments U.mul32 : simpl never.
Arguments GetDXGIFormat : simpl never.
Arguments LookupBaseFormat : simpl never.
Arguments U.u8 : simpl never.
Arguments U.u16 : simpl never.
#[local] Arguments Z.eqb : simpl nomatch.

(** ** LoadData *)

Section Upload.
Context `{GPUTextureDecls}.

(** C8. LoadData leaves the tracked usage-state as it found it, on either
    sub-path and whether it succeeds or fails (the whole object is as
    before).  A failing call records no transition and no copy; a
    succeeding call records the transition to the copy-destination state,
    the copy, and the transition back to the prior state, the two
    transitions being absent when the prior state already is the
    copy-destination state. *)
Theorem LoadData_preserves_state :
  forall (W : Type) (h : Handler W) (w : W) (x y width height : Z)
         (src_mem : Memory) (data pitch : Z) (t : Texture) (host : Memory),
    let r := run h (LoadData x y width height src_mem data pitch t host) w in
    exists ok t' host',
      outcome r = Returned (ok, t', host') /\
      m_state t' = m_state t /\ t' = t /\
      (ok = false -> cmds (trace r) = [] /\ host' = host) /\
      (ok = true ->
         exists copy,
           (copy = CmdCopyTextureRegion x y \/ copy = CmdStagingCopy x y) /\
           cmds (trace r) =
             if m_state t =? D3D12_RESOURCE_STATE_COPY_DEST then [copy]
             else [CmdBarrier (m_state t) D3D12_RESOURCE_STATE_COPY_DEST;
                   copy;
                   CmdBarrier D3D12_RESOURCE_STATE_COPY_DEST (m_state t)]).
Proof.
  intros W h w x y width height src_mem data pitch t host r; subst r.
  unfold LoadData, BeginStreamUpdate, EndStreamUpdate, CopyFromBuffer,
    TransitionToState.
  destruct t as [tw th tl tv ts tf tr srv rtv st dv].
  run_all.
  all: try (exfalso; cbn in *; congruence).
  all: try (exfalso; cbn in *; congruence).
  all: do 3 eexists; split; [reflexivity|]; cbn.
  all: split; [reflexivity|]; split; [reflexivity|]; split; intro Hok.
  all: try discriminate Hok; auto.
  all: first [ exists (CmdCopyTextureRegion x y); split; [auto | reflexivity]
             | exists (CmdStagingCopy x y); split; [auto | reflexivity] ].
Qed.
(** C6. The streaming sub-path reserves at most twice.  When the first
    reservation fails, the command list is submitted once (without waiting)
    and the reservation is retried once with the same size and alignment;
    when the retry fails too the call fails.  For LoadData on the streaming
    sub-path the same holds, and the failing call returns false with the
    texture object (descriptors included) and the host memory as they were,
    having recorded no command. *)
Theorem streaming_reservation_retry :
  forall (W : Type) (h : Handler W) (w : W) (x y width height : Z) (t : Texture),
    (let r := run h (BeginStreamUpdate x y width height t) w in
     (List.length (reservations (trace r)) <= 2)%nat /\
     exists ok,
       Reservation (upload_size_of width height t) (stream_ops (trace r)) ok /\
       (if ok
        then exists p, outcome r = Returned (Some (p, upload_pitch_of width t))
        else outcome r = Returned None)) /\
    (forall (src_mem : Memory) (data pitch : Z) (host : Memory),
       let r := run h (LoadData x y width height src_mem data pitch t host) w in
       (List.length (reservations (trace r)) <= 2)%nat /\
       (route (trace r) = Some Streaming ->
        exists ok,
          Reservation (upload_size_of width height t) (stream_ops (trace r)) ok /\
          (if ok
           then exists host', outcome r = Returned (true, t, host')
           else outcome r = Returned (false, t, host) /\ cmds (trace r) = []))).
Proof.
  intros W h w x y width height t; split.
  - cbv zeta. unfold BeginStreamUpdate, upload_size_of, upload_pitch_of.
    run_all; (split; [lia|]).
    + exists true; split; [constructor | eauto].
    + exists true; split; [constructor | eauto].
    + exists false; split; [constructor | eauto].
  - intros src_mem data pitch host. cbv zeta.
    unfold LoadData, BeginStreamUpdate, EndStreamUpdate, CopyFromBuffer,
      TransitionToState, upload_size_of, upload_pitch_of.
    destruct t as [tw th tl tv ts tf tr srv rtv st dv].
    run_all.
    all: try (exfalso; cbn in *; congruence).
    all: split; [lia|]; intro Hr; try discriminate Hr.
    all: first [ exists true; split; [constructor | eexists; reflexivity]
               | exists false; split; [constructor | split; reflexivity] ].
Qed.

(** The row width in bytes rounded up to a multiple of [alignment], and the
    upload size, as the words of the specification give them (unbounded
    integers). *)
Definition round_up (value alignment : Z) : Z :=
  (value + alignment - 1) / alignment * alignment.

Definition spec_upload_size (width texel_size height : Z) : Z :=
  round_up (width * texel_size) D3D12_TEXTURE_DATA_PITCH_ALIGNMENT * height.

(** In range, the 32-bit computation is the rounding of the words. *)
Lemma land_clear_low8 (x : Z) :
  0 <= x < 2 ^ 32 -> Z.land x 4294967040 = x / 256 * 256.
Proof.
  intros Hx.
  change 4294967040 with (Z.shiftl (Z.ones 24) 8).
  change 256 with (2 ^ 8).
  rewrite <- Z.shiftr_div_pow2, <- Z.shiftl_mul_pow2 by lia.
  apply Z.bits_inj'; intros n Hn.
  rewrite Z.land_spec, !Z.shiftl_spec by lia.
  destruct (Z.ltb_spec n 8) as [Hlow|Hhigh].
  - rewrite !(Z.testbit_neg_r _ (n - 8)) by lia. apply andb_false_r.
  - rewrite Z.shiftr_spec by lia.
    replace (n - 8 + 8) with n by lia.
    destruct (Z.ltb_spec n 32) as [Hin|Hout].
    + rewrite Z.ones_spec_low by lia. apply andb_true_r.
    + rewrite Z.ones_spec_high by lia. rewrite andb_false_r.
      symmetry. destruct (Z.eq_dec x 0) as [->|Hnz]; [apply Z.bits_0|].
      apply Z.bits_above_log2; [lia|].
      apply Z.lt_le_trans with 32; [|lia].
      apply Z.log2_lt_pow2; lia.
Qed.

Lemma AlignUpPow2_pitch_exact (value : Z) :
  0 <= value -> value + 255 < 2 ^ 32 ->
  AlignUpPow2 value D3D12_TEXTURE_DATA_PITCH_ALIGNMENT
  = round_up value D3D12_TEXTURE_DATA_PITCH_ALIGNMENT.
Proof.
  intros H0 H1.
  unfold AlignUpPow2, round_up, D3D12_TEXTURE_DATA_PITCH_ALIGNMENT,
    U.add32, U.u32, U.wrap.
  change ((256 - 1) mod 2 ^ 32) with 255.
  change (Z.lnot 255 mod 2 ^ 32) with 4294967040.
  rewrite (Z.mod_small (value + 255)) by lia.
  rewrite land_clear_low8 by lia.
  replace (value + 256 - 1) with (value + 255) by lia. reflexivity.
Qed.

(** C3, as the code has it.  LoadData routes by a strict comparison of
    32-bit values: the destination row stride is the row width in bytes
    rounded up to the pitch alignment and the total size is that stride
    times the height, each computed in [u32] arithmetic; a total strictly
    below the size of the stream buffer takes the streaming sub-path and no
    staging texture is touched, a total at or above it takes the staging
    sub-path and the stream buffer is not asked for memory.  As long as the
    row width in bytes plus 255 and the product of stride and height stay
    below 2^32, the 32-bit values are the rounded stride and the product
    themselves. *)
Theorem LoadData_route :
  forall (W : Type) (h : Handler W) (w : W) (x y width height : Z)
         (src_mem : Memory) (data pitch : Z) (t : Texture) (host : Memory),
    let r := run h (LoadData x y width height src_mem data pitch t host) w in
    let size := upload_size_of width height t in
    let capacity := fst (h _ GetSize w) in
    (size < capacity ->
       route (trace r) = Some Streaming /\ staging_calls (trace r) = []) /\
    (capacity <= size ->
       route (trace r) = Some Staging /\ stream_ops (trace r) = []) /\
    (0 <= width * GetPixelSize (m_format t) ->
     width * GetPixelSize (m_format t) + 255 < 2 ^ 32 ->
     0 <= spec_upload_size width (GetPixelSize (m_format t)) height < 2 ^ 32 ->
     upload_pitch_of width t
       = round_up (width * GetPixelSize (m_format t))
           D3D12_TEXTURE_DATA_PITCH_ALIGNMENT /\
     size = spec_upload_size width (GetPixelSize (m_format t)) height).
Proof.
  intros W h w x y width height src_mem data pitch t host r size capacity.
  subst r size capacity.
  split; [|split].
  - intros Hlt.
    unfold LoadData, BeginStreamUpdate, EndStreamUpdate, CopyFromBuffer,
      TransitionToState, upload_size_of, upload_pitch_of in *.
    destruct t as [tw th tl tv ts tf tr srv rtv st dv]; cbn in Hlt.
    run_all; try (exfalso; lia); auto.
  - intros Hge.
    unfold LoadData, BeginStreamUpdate, EndStreamUpdate, CopyFromBuffer,
      TransitionToState, upload_size_of, upload_pitch_of in *.
    destruct t as [tw th tl tv ts tf tr srv rtv st dv]; cbn in Hge.
    run_all; try (exfalso; lia); auto.
  - intros H0 H1 H2.
    unfold upload_size_of, upload_pitch_of, spec_upload_size in *.
    assert (Hp : U.mul32 width (GetPixelSize (m_format t))
                 = width * GetPixelSize (m_format t)).
    { unfold U.mul32, U.u32, U.wrap. apply Z.mod_small. lia. }
    rewrite Hp, AlignUpPow2_pitch_exact by lia.
    split; [reflexivity|].
    unfold U.mul32, U.u32, U.wrap. apply Z.mod_small. lia.
Qed.

Ltac unit_answers :=
  repeat match goal with
         | |- context [fst (?h unit ?c ?w)] => destruct (fst (h unit c w))
         end.

(** C1, as the code has it.  A LoadData call that takes the staging
    sub-path and succeeds creates exactly one staging texture, of the size
    of the upload rectangle, and destroys it by exactly one explicit call,
    [Destroy(true)]: the deferred variant.  That call comes right after the
    staging-to-texture copy, before the transition back to the prior
    state. *)
Theorem LoadData_staging_destroy_deferred :
  forall (W : Type) (h : Handler W) (w : W) (x y width height : Z)
         (src_mem : Memory) (data pitch : Z) (t : Texture) (host : Memory)
         (t' : Texture) (host' : Memory),
    let r := run h (LoadData x y width height src_mem data pitch t host) w in
    route (trace r) = Some Staging ->
    outcome r = Returned (true, t', host') ->
    staging_creates (trace r) = [(width, height)] /\
    staging_destroys (trace r) = [true] /\
    staging_calls (trace r) =
      [called (StagingTexture_Create width height
                 (GetDXGIFormat (m_format t)) true);
       called (StagingTexture_WritePixels 0 0 width height data pitch);
       called (StagingTexture_CopyToTexture 0 0 (m_resource t) 0 x y
                 width height);
       called (StagingTexture_Destroy true);
       called StagingTexture_dtor] /\
    exists pre post,
      trace r =
        pre ++ [Ev (StagingTexture_CopyToTexture 0 0 (m_resource t) 0 x y
                      width height) tt;
                Ev (StagingTexture_Destroy true) tt] ++ post /\
      cmds pre =
        (if m_state t =? D3D12_RESOURCE_STATE_COPY_DEST then []
         else [CmdBarrier (m_state t) D3D12_RESOURCE_STATE_COPY_DEST]) /\
      cmds post =
        (if m_state t =? D3D12_RESOURCE_STATE_COPY_DEST then []
         else [CmdBarrier D3D12_RESOURCE_STATE_COPY_DEST (m_state t)]).
Proof.
  intros W h w x y width height src_mem data pitch t host t' host' r.
  subst r.
  unfold LoadData, BeginStreamUpdate, EndStreamUpdate, CopyFromBuffer,
    TransitionToState.
  destruct t as [tw th tl tv ts tf tr srv rtv st dv].
  run_all; intros Hroute Hout; try discriminate.
  all: try (exfalso; cbn in *; congruence).
  all: unit_answers; cbn.
  all: repeat (split; [reflexivity|]).
  all: match goal with
       | |- exists pre post, ?tr = _ /\ _ =>
           first [ exists (firstn 3 tr), (skipn 5 tr); cbn;
                   repeat split; reflexivity
                 | exists (firstn 5 tr), (skipn 7 tr); cbn;
                   repeat split; reflexivity ]
       end.
Qed.

End Upload.

(** C1, a run.  A 64 x 64 upload into an RGBA8 texture needs 16384 bytes;
    with a stream buffer of 1024 bytes the staging sub-path is taken, the
    call succeeds, and the one explicit destruction of the staging texture
    is the deferred variant, not the immediate one. *)
Lemma LoadData_staging_destroy_not_immediate :
  let r := run Double.handler
             (LoadData (H := Double.decls) 0 0 64 64 Double.ones 0 256
                Double.texture_rgba8 Double.zeros)
             (Double.plentiful 1024) in
  outcome r = Returned (true, Double.texture_rgba8, Double.zeros) /\
  route (trace r) = Some Staging /\
  staging_creates (trace r) = [(64, 64)] /\
  staging_destroys (trace r) = [true] /\
  staging_destroys (trace r) <> [false].
Proof.
  vm_compute. repeat split; try reflexivity. discriminate.
Qed.

(** The same run, through the theorem: one creation, one deferred
    destruction. *)
Lemma LoadData_staging_destroy_deferred_run :
  let r := run Double.handler
             (LoadData (H := Double.decls) 0 0 64 64 Double.ones 0 256
                Double.texture_rgba8 Double.zeros)
             (Double.plentiful 1024) in
  staging_creates (trace r) = [(64, 64)] /\
  staging_destroys (trace r) = [true].
Proof.
  cbv zeta.
  destruct (LoadData_staging_destroy_deferred (H := Double.decls)
              Double.World Double.handler (Double.plentiful 1024)
              0 0 64 64 Double.ones 0 256 Double.texture_rgba8 Double.zeros
              Double.texture_rgba8 Double.zeros)
    as (Hc & Hd & _).
  - vm_compute. reflexivity.
  - vm_compute. reflexivity.
  - split; [exact Hc | exact Hd].
Defined.

(** C3, a run.  A 65535 x 16384 upload into an RGBA8 texture has a row
    stride of 262144 bytes and a total of 2^32 bytes, far above a stream
    buffer of 16 MiB; the 32-bit product is 0, and the call takes the
    streaming sub-path, not the staging one. *)
Definition texture_65535x16384 : Texture :=
  {| m_width := 65535; m_height := 16384; m_layers := 1; m_levels := 1;
     m_samples := 1; m_format := RGBA8;
     m_resource := m_resource Double.texture_rgba8;
     m_srv_descriptor := m_srv_descriptor Double.texture_rgba8;
     m_rtv_or_dsv_descriptor := DescriptorHandle_empty;
     m_state := D3D12_RESOURCE_STATE_PIXEL_SHADER_RESOURCE;
     m_is_depth_view := false |}.

Lemma LoadData_route_wraps :
  let r := run Double.handler
             (LoadData (H := Double.decls) 0 0 65535 16384 Double.ones 0 262144
                texture_65535x16384 Double.zeros)
             (Double.plentiful 16777216) in
  round_up (65535 * 4) D3D12_TEXTURE_DATA_PITCH_ALIGNMENT = 262144 /\
  spec_upload_size 65535 4 16384 = 4294967296 /\
  16777216 <= spec_upload_size 65535 4 16384 /\
  upload_size_of (H := Double.decls) 65535 16384 texture_65535x16384 = 0 /\
  route (trace r) = Some Streaming /\
  route (trace r) <> Some Staging /\
  staging_calls (trace r) = [].
Proof.
  vm_compute. repeat split; try reflexivity; discriminate.
Qed.

(** ** The row copy *)

Lemma memcpy_inside dst_mem dst src_mem src n i :
  0 <= i < n -> memcpy dst_mem dst src_mem src n (dst + i) = src_mem (src + i).
Proof.
  intros Hi. unfold memcpy.
  replace ((dst <=? dst + i) && (dst + i <? dst + n)) with true
    by (symmetry; apply andb_true_intro; split;
        [apply Z.leb_le | apply Z.ltb_lt]; lia).
  f_equal; lia.
Qed.

Lemma memcpy_outside dst_mem dst src_mem src n a :
  ~ (dst <= a < dst + n) -> memcpy dst_mem dst src_mem src n a = dst_mem a.
Proof.
  intros Ha. unfold memcpy.
  destruct (Z.leb_spec dst a), (Z.ltb_spec a (dst + n)); cbn; try reflexivity.
  exfalso; apply Ha; lia.
Qed.

(** Bytes that lie in none of the [rows] destination rows stay as they were. *)
Lemma copy_rows_untouched :
  forall (rows : nat) (src_mem : Memory) (src_ptr src_pitch : Z)
         (dst_mem : Memory) (dst_ptr dst_pitch copy_size a : Z),
    (forall row col, 0 <= row < Z.of_nat rows -> 0 <= col < copy_size ->
                     a <> dst_ptr + row * dst_pitch + col) ->
    copy_rows rows src_mem src_ptr src_pitch dst_mem dst_ptr dst_pitch
      copy_size a = dst_mem a.
Proof.
  induction rows as [|rows IH]; intros src_mem src_ptr src_pitch dst_mem
    dst_ptr dst_pitch copy_size a Hout; cbn [copy_rows]; [reflexivity|].
  rewrite IH.
  - apply memcpy_outside. intros [Hlo Hhi].
    apply (Hout 0 (a - dst_ptr)); lia.
  - intros row col Hrow Hcol.
    specialize (Hout (row + 1) col).
    replace (dst_ptr + (row + 1) * dst_pitch + col)
      with (dst_ptr + dst_pitch + row * dst_pitch + col) in Hout by lia.
    apply Hout; lia.
Qed.

(** Each of the [rows] rows receives [copy_size] bytes of the matching
    source row, each side advancing by its own pitch. *)
Lemma copy_rows_copied :
  forall (rows : nat) (src_mem : Memory) (src_ptr src_pitch : Z)
         (dst_mem : Memory) (dst_ptr dst_pitch copy_size row col : Z),
    copy_size <= dst_pitch ->
    0 <= row < Z.of_nat rows -> 0 <= col < copy_size ->
    copy_rows rows src_mem src_ptr src_pitch dst_mem dst_ptr dst_pitch
      copy_size (dst_ptr + row * dst_pitch + col)
    = src_mem (src_ptr + row * src_pitch + col).
Proof.
  induction rows as [|rows IH]; intros src_mem src_ptr src_pitch dst_mem
    dst_ptr dst_pitch copy_size row col Hsize Hrow Hcol; [lia|].
  cbn [copy_rows].
  destruct (Z.eq_dec row 0) as [->|Hnz].
  - rewrite copy_rows_untouched.
    + replace (dst_ptr + 0 * dst_pitch + col) with (dst_ptr + col) by lia.
      replace (src_ptr + 0 * src_pitch + col) with (src_ptr + col) by lia.
      apply memcpy_inside; assumption.
    + intros row' col' Hrow' Hcol'. nia.
  - replace (dst_ptr + row * dst_pitch + col)
      with (dst_ptr + dst_pitch + (row - 1) * dst_pitch + col) by lia.
    rewrite IH by lia. f_equal; lia.
Qed.

(** C7, as the code has it.  With equal pitches the copy is one [memcpy]
    of the 32-bit product of pitch and height: that many bytes of the
    destination become those of the source and every other byte stays as it
    was; the count is pitch times height whenever that product is below
    2^32.  With different pitches each of the [height] rows receives
    min(source pitch, destination pitch) bytes of the matching source row,
    each pointer advancing by its own pitch, and every other destination
    byte stays as it was. *)
Theorem CopyToUploadBuffer_rows :
  forall (src_mem : Memory) (src_data src_pitch height : Z)
         (dst_mem : Memory) (dst_data dst_pitch : Z),
    U.in_u32 src_pitch -> U.in_u32 dst_pitch -> U.in_u32 height ->
    let out := CopyToUploadBuffer src_mem src_data src_pitch height
                 dst_mem dst_data dst_pitch in
    (src_pitch = dst_pitch ->
       let n := U.mul32 dst_pitch height in
       (forall i, 0 <= i < n -> out (dst_data + i) = src_mem (src_data + i)) /\
       (forall a, ~ (dst_data <= a < dst_data + n) -> out a = dst_mem a) /\
       (dst_pitch * height < 2 ^ 32 -> n = dst_pitch * height)) /\
    (src_pitch <> dst_pitch ->
       let n := Z.min src_pitch dst_pitch in
       (forall row col, 0 <= row < height -> 0 <= col < n ->
          out (dst_data + row * dst_pitch + col)
          = src_mem (src_data + row * src_pitch + col)) /\
       (forall a,
          (forall row col, 0 <= row < height -> 0 <= col < n ->
             a <> dst_data + row * dst_pitch + col) ->
          out a = dst_mem a)).
Proof.
  intros src_mem src_data src_pitch height dst_mem dst_data dst_pitch
    Hsp Hdp Hh out; subst out.
  unfold U.in_u32 in *. unfold CopyToUploadBuffer. split.
  - intros Heq. rewrite (proj2 (Z.eqb_eq _ _) Heq). cbv zeta.
    split; [|split].
    + intros i Hi. apply memcpy_inside; assumption.
    + intros a Ha. apply memcpy_outside; assumption.
    + intros Hfit. unfold U.mul32, U.u32, U.wrap. apply Z.mod_small. nia.
  - intros Hne. destruct (Z.eqb_spec src_pitch dst_pitch) as [|_];
      [contradiction|]. cbv zeta. split.
    + intros row col Hrow Hcol. apply copy_rows_copied; lia.
    + intros a Ha. apply copy_rows_untouched.
      intros row col Hrow Hcol. apply Ha; lia.
Qed.

(** Two rows of three bytes copied into rows of four: three bytes land in
    each row and the fourth byte of each row, like everything after the
    second row, stays as it was. *)
Lemma CopyToUploadBuffer_rows_run :
  let out := CopyToUploadBuffer Double.ones 0 3 2 Double.zeros 0 4 in
  out 0 = x01 /\ out 2 = x01 /\ out 3 = x00 /\ out 4 = x01 /\ out 7 = x00 /\
  out 8 = x00.
Proof.
  cbv zeta.
  destruct (CopyToUploadBuffer_rows Double.ones 0 3 2 Double.zeros 0 4)
    as [_ Hrows]; [unfold U.in_u32; lia ..|].
  assert (Hne : 3 <> 4) by lia.
  destruct (Hrows Hne) as [Hcopied Hrest].
  split; [apply (Hcopied 0 0); lia|].
  split; [apply (Hcopied 0 2); lia|].
  split; [apply (Hrest 3); intros row col Hrow Hcol; cbn in Hcol; lia|].
  split; [apply (Hcopied 1 0); lia|].
  split; [apply (Hrest 7); intros row col Hrow Hcol; cbn in Hcol; lia|].
  apply (Hrest 8); intros row col Hrow Hcol; cbn in Hcol; lia.
Defined.

(** C7, a run.  With both pitches and the height equal to 65536 the
    product is 2^32 and its 32-bit value is 0: nothing is copied, and the
    first destination byte is not the first source byte. *)
Lemma CopyToUploadBuffer_bulk_wraps :
  let out := CopyToUploadBuffer Double.ones 0 65536 65536
               Double.zeros 0 65536 in
  0 <= 0 < 65536 * 65536 /\
  U.mul32 65536 65536 = 0 /\
  Double.ones (0 + 0) = x01 /\
  out (0 + 0) = x00 /\
  out (0 + 0) <> Double.ones (0 + 0).
Proof.
  vm_compute. repeat split; try reflexivity; discriminate.
Qed.

(** ** Create *)

(** Allocation attempts that were turned down: the device returning a
    failing [HRESULT], a heap having no free slot. *)
Definition allocation_failure_of (e : Event) : option Called :=
  match e with
  | Ev c r =>
      match c in Call X return X -> option Called with
      | CreateCommittedResource a b d s f => fun r =>
          match r with
          | inl _ => Some (called (CreateCommittedResource a b d s f))
          | inr _ => None
          end
      | Allocate heap => fun r =>
          match r with
          | None => Some (called (Allocate heap))
          | Some _ => None
          end
      | _ => fun _ => None
      end r
  end.
Definition allocation_failures := collect allocation_failure_of.

Lemma LookupBaseFormat_GetDXGIFormat (f : GPUFormat) :
  LookupBaseFormat (GetDXGIFormat f) = f.
Proof. destruct f; reflexivity. Qed.

Lemma LookupBaseFormat_in_table (d : DXGI_FORMAT) :
  In d s_dxgi_mapping -> GetDXGIFormat (LookupBaseFormat d) = d.
Proof.
  intros Hin. cbn in Hin.
  repeat (destruct Hin as [<-|Hin]; [reflexivity|]). contradiction.
Qed.

Lemma LookupBaseFormat_outside_table (d : DXGI_FORMAT) :
  ~ In d s_dxgi_mapping -> LookupBaseFormat d = Unknown.
Proof.
  intros Hout.
  unfold LookupBaseFormat, s_dxgi_mapping. cbn [LookupBaseFormat_from].
  repeat match goal with
         | |- context [if ?a =? d then _ else _] =>
             destruct (Z.eqb_spec a d) as [Heq|_];
             [exfalso; apply Hout; rewrite <- Heq; cbn; tauto|]
         end.
  reflexivity.
Qed.

Section Creation.
Context `{GPUTextureDecls}.

Definition exceeds_maxima (width height layers levels samples : Z) : Prop :=
  width > MAX_WIDTH \/ height > MAX_HEIGHT \/ layers > MAX_LAYERS \/
  levels > MAX_LEVELS \/ samples > MAX_SAMPLES.

(** What [Destroy(true)] hands to the deferred path for an object [t]. *)
Definition deferred_contents (t : Texture) : list Deferred :=
  [DeferredDescriptor DescriptorHeap (m_srv_descriptor t);
   DeferredDescriptor (if m_is_depth_view t then DSVHeap else RTVHeap)
     (m_rtv_or_dsv_descriptor t);
   DeferredResource (m_resource t)].

(** C4. Create is atomic on failure.  Dimensions above the maxima are
    rejected before any allocation attempt.  When the device turns the
    resource down, or a heap has no slot for a requested descriptor, Create
    returns false.  Whenever Create returns false the object is exactly as
    it was, nothing of it went to the deferred path, and every descriptor
    slot handed out during the call was given back.  The old contents go to
    the deferred path only in a call that returns true, in which no
    allocation was turned down. *)
Theorem Create_failure_atomic :
  forall (W : Type) (h : Handler W) (w : W)
         (width height layers levels samples : Z)
         (format srv_format rtv_format dsv_format : DXGI_FORMAT)
         (flags : D3D12_RESOURCE_FLAGS) (t : Texture),
    let r := run h (Create width height layers levels samples format
                      srv_format rtv_format dsv_format flags t) w in
    (exceeds_maxima width height layers levels samples ->
       outcome r = Returned (false, t) /\ allocation_attempts (trace r) = []) /\
    (allocation_failures (trace r) <> [] -> outcome r = Returned (false, t)) /\
    (forall t', outcome r = Returned (false, t') ->
       t' = t /\ deferred (trace r) = [] /\
       forall slot, In slot (allocated (trace r)) -> In slot (freed (trace r))) /\
    (forall t', outcome r = Returned (true, t') ->
       deferred (trace r) = deferred_contents t /\
       allocation_failures (trace r) = [] /\ freed (trace r) = []).
Proof.
  intros W h w width height layers levels samples format srv_format
    rtv_format dsv_format flags t r; subst r.
  unfold exceeds_maxima, deferred_contents, Create, Create_commit, Destroy,
    CreateSRVDescriptor, CreateRTVDescriptor, CreateDSVDescriptor, Assert,
    ComPtr_Release.
  destruct t as [tw th tl tv ts tf [tr|] srv rtv st dv].
  all: remember (samples >? 1) as ms.
  all: run_all.
  all: repeat split; intros; try reflexivity; try discriminate;
       try congruence; try (exfalso; lia); auto.
Qed.

(** C9, as the code has it.  When the maxima fit the fields (16-bit
    extents, 8-bit counts), a Create with in-bounds parameters in which no
    allocation is turned down (and at most one of the two auxiliary view
    formats is given, as the assertion demands) returns true; and a Create
    that returns true leaves a valid object whose width, height, layer,
    level and sample counts are the inputs, and whose tracked state is the
    render-target state when a render-target view format was given, the
    depth-write state when a depth view format was given, and the
    shader-read state when neither was.  The stored base format is the one
    the table gives for the native format: it stands for the input exactly
    when the native format is one of the seven the table lists (for every
    base format [f], creating with its native encoding stores [f]), and it
    is [Unknown] for every other native format. *)
Theorem Create_success :
  forall (W : Type) (h : Handler W) (w : W)
         (width height layers levels samples : Z)
         (format srv_format rtv_format dsv_format : DXGI_FORMAT)
         (flags : D3D12_RESOURCE_FLAGS) (t : Texture),
    MAX_WIDTH <= 65535 -> MAX_HEIGHT <= 65535 ->
    MAX_LAYERS <= 255 -> MAX_LEVELS <= 255 -> MAX_SAMPLES <= 255 ->
    U.in_u32 width -> U.in_u32 height -> U.in_u32 layers ->
    U.in_u32 levels -> U.in_u32 samples ->
    let r := run h (Create width height layers levels samples format
                      srv_format rtv_format dsv_format flags t) w in
    (~ exceeds_maxima width height layers levels samples ->
     allocation_failures (trace r) = [] ->
     rtv_format = DXGI_FORMAT_UNKNOWN \/ dsv_format = DXGI_FORMAT_UNKNOWN ->
     exists t', outcome r = Returned (true, t')) /\
    (forall t', outcome r = Returned (true, t') ->
       IsValid t' = true /\
       m_width t' = width /\ m_height t' = height /\ m_layers t' = layers /\
       m_levels t' = levels /\ m_samples t' = samples /\
       m_format t' = LookupBaseFormat format /\
       (forall f, format = GetDXGIFormat f -> m_format t' = f) /\
       (In format s_dxgi_mapping -> GetDXGIFormat (m_format t') = format) /\
       (~ In format s_dxgi_mapping -> m_format t' = Unknown) /\
       (rtv_format <> DXGI_FORMAT_UNKNOWN ->
          m_state t' = D3D12_RESOURCE_STATE_RENDER_TARGET) /\
       (dsv_format <> DXGI_FORMAT_UNKNOWN ->
          m_state t' = D3D12_RESOURCE_STATE_DEPTH_WRITE) /\
       (rtv_format = DXGI_FORMAT_UNKNOWN -> dsv_format = DXGI_FORMAT_UNKNOWN ->
          m_state t' = D3D12_RESOURCE_STATE_PIXEL_SHADER_RESOURCE)).
Proof.
  intros W h w width height layers levels samples format srv_format
    rtv_format dsv_format flags t Hw Hh Hl Hv Hs Iw Ih Il Iv Is r; subst r.
  unfold U.in_u32 in *.
  unfold exceeds_maxima, Create, Create_commit, Destroy, CreateSRVDescriptor,
    CreateRTVDescriptor, CreateDSVDescriptor, Assert, ComPtr_Release.
  destruct t as [tw th tl tv ts tf [tr|] srv rtv st dv].
  all: remember (samples >? 1) as ms.
  all: run_all; (split; [intros Hin Hok Hone | intros t' Hr]).
  all: try discriminate; try (exfalso; unfold neqb in *; lia); eauto.
  all: injection Hr as <-; cbn.
  all: unfold neqb, U.u16, U.u8, U.wrap in *.
  all: rewrite ?Z.mod_small by lia.
  all: repeat split; try reflexivity; try (intros; exfalso; lia).
  all: first [ intros f ->; apply LookupBaseFormat_GetDXGIFormat
             | apply LookupBaseFormat_in_table
             | apply LookupBaseFormat_outside_table ].
Qed.

End Creation.

(** A native format the table does not list. *)
Definition DXGI_FORMAT_R16G16B16A16_FLOAT : DXGI_FORMAT := 10.

(** C9, a run.  An in-bounds 256 x 256 single-sample Create with the native
    format R16G16B16A16_FLOAT, in which every allocation succeeds, returns
    true with the dimensions stored as given, but the stored base format is
    [Unknown], whose native encoding is not the format that was passed. *)
Lemma Create_unlisted_format_not_stored :
  let r := run Double.handler
             (Create (H := Double.decls) 256 256 1 1 1
                DXGI_FORMAT_R16G16B16A16_FLOAT DXGI_FORMAT_R16G16B16A16_FLOAT
                DXGI_FORMAT_UNKNOWN DXGI_FORMAT_UNKNOWN 0 Texture_default)
             (Double.plentiful 1024) in
  exists t',
    outcome r = Returned (true, t') /\
    allocation_failures (trace r) = [] /\
    IsValid t' = true /\ m_width t' = 256 /\ m_height t' = 256 /\
    m_format t' = Unknown /\
    GetDXGIFormat (m_format t') = DXGI_FORMAT_UNKNOWN /\
    GetDXGIFormat (m_format t') <> DXGI_FORMAT_R16G16B16A16_FLOAT /\
    (forall f, GetDXGIFormat f <> DXGI_FORMAT_R16G16B16A16_FLOAT).
Proof.
  eexists. vm_compute.
  repeat (split; [reflexivity|]).
  split; [discriminate|].
  intros f; destruct f; discriminate.
Qed.


(** C9, a run: a 256 x 256 single-sample RGBA8 texture with a sampled view,
    created on an empty object. *)
Lemma Create_success_run :
  exists t',
    outcome (run Double.handler
               (Create (H := Double.decls) 256 256 1 1 1
                  DXGI_FORMAT_R8G8B8A8_UNORM DXGI_FORMAT_R8G8B8A8_UNORM
                  DXGI_FORMAT_UNKNOWN DXGI_FORMAT_UNKNOWN 0 Texture_default)
               (Double.plentiful 1024))
    = Returned (true, t') /\
    IsValid t' = true /\ m_width t' = 256 /\ m_height t' = 256 /\
    m_format t' = RGBA8 /\
    m_state t' = D3D12_RESOURCE_STATE_PIXEL_SHADER_RESOURCE.
Proof.
  destruct (Create_success (H := Double.decls) Double.World Double.handler
              (Double.plentiful 1024) 256 256 1 1 1
              DXGI_FORMAT_R8G8B8A8_UNORM DXGI_FORMAT_R8G8B8A8_UNORM
              DXGI_FORMAT_UNKNOWN DXGI_FORMAT_UNKNOWN 0 Texture_default
              ltac:(cbn; lia) ltac:(cbn; lia) ltac:(cbn; lia)
              ltac:(cbn; lia) ltac:(cbn; lia)
              ltac:(unfold U.in_u32; lia) ltac:(unfold U.in_u32; lia)
              ltac:(unfold U.in_u32; lia) ltac:(unfold U.in_u32; lia)
              ltac:(unfold U.in_u32; lia))
    as [Hreturns Hfields].
  destruct Hreturns as [t' Ht'].
  - unfold exceeds_maxima; cbn; lia.
  - vm_compute; reflexivity.
  - left; reflexivity.
  - exists t'. split; [exact Ht'|].
    destruct (Hfields t' Ht')
      as (Hvalid & Hwidth & Hheight & _ & _ & _ & _ & Hformat & _ & _ & _ & _
        & Hstate).
    split; [exact Hvalid|]. split; [exact Hwidth|]. split; [exact Hheight|].
    split; [exact (Hformat RGBA8 eq_refl)|].
    exact (Hstate eq_refl eq_refl).
Defined.

(** C4, runs.  With the descriptor heaps exhausted a Create that asks for a
    sampled view fails, leaves a live object as it was, and defers
    nothing; with only the render-target heap exhausted the sampled-view
    slot that was handed out is given back. *)
Lemma Create_failure_runs :
  let create :=
    Create (H := Double.decls) 64 64 1 1 1 DXGI_FORMAT_R8G8B8A8_UNORM
      DXGI_FORMAT_R8G8B8A8_UNORM DXGI_FORMAT_R8G8B8A8_UNORM
      DXGI_FORMAT_UNKNOWN 0 Double.texture_rgba8 in
  let r1 := run Double.handler create
              (Double.with_slots DescriptorHeap 0 (Double.plentiful 1024)) in
  let r2 := run Double.handler create
              (Double.with_slots RTVHeap 0 (Double.plentiful 1024)) in
  outcome r1 = Returned (false, Double.texture_rgba8) /\
  deferred (trace r1) = [] /\ allocated (trace r1) = [] /\
  outcome r2 = Returned (false, Double.texture_rgba8) /\
  deferred (trace r2) = [] /\
  allocated (trace r2) = freed (trace r2) /\
  List.length (allocated (trace r2)) = 1%nat /\
  Double.srv_slots (world r2) = 8%nat.
Proof. vm_compute. repeat split; reflexivity. Qed.

(** ** Adopt *)

(** A failing Adopt leaves every field but the depth-view flag as it was;
    the flag is as it was only when the sampled-view allocation was the one
    that failed, and false otherwise.  Every slot handed out during the
    call was given back. *)
Lemma Adopt_failure_frame :
  forall (W : Type) (h : Handler W) (w : W) (texture : ID3D12Resource)
         (srv_format rtv_format dsv_format : DXGI_FORMAT)
         (state : D3D12_RESOURCE_STATES) (t t' : Texture),
    let r := run h (Adopt texture srv_format rtv_format dsv_format state t) w in
    outcome r = Returned (false, t') ->
    ((allocation_failures (trace r) = [called (Allocate DescriptorHeap)] /\
      t' = t) \/
     ((allocation_failures (trace r) = [called (Allocate RTVHeap)] \/
       allocation_failures (trace r) = [called (Allocate DSVHeap)]) /\
      t' = set_is_depth_view false t)) /\
    deferred (trace r) = [] /\
    (forall slot, In slot (allocated (trace r)) -> In slot (freed (trace r))).
Proof.
  intros W h w texture srv_format rtv_format dsv_format state t t' r; subst r.
  unfold Adopt, CreateSRVDescriptor, CreateRTVDescriptor, CreateDSVDescriptor,
    Assert, ComPtr_Release.
  destruct t as [tw th tl tv ts tf [tr|] srv rtv st dv].
  all: remember (SampleDesc_Count (res_desc texture) >? 1) as ms.
  all: run_all; intros Hr; try discriminate Hr.
  all: injection Hr as <-; cbn.
  all: split; [|split; [reflexivity | auto]].
  all: first [ left; split; reflexivity
             | right; split; [left; reflexivity | reflexivity]
             | right; split; [right; reflexivity | reflexivity] ].
Qed.

(** A resource made elsewhere, such as a back buffer of the swap chain. *)
Definition back_buffer : ID3D12Resource :=
  {| res_id := 9;
     res_desc := {| Dimension := D3D12_RESOURCE_DIMENSION_TEXTURE2D;
                    Alignment := 0; Width := 640; Height := 480;
                    DepthOrArraySize := 1; MipLevels := 1;
                    Format := DXGI_FORMAT_R8G8B8A8_UNORM;
                    SampleDesc_Count := 1; SampleDesc_Quality := 0;
                    Layout := D3D12_TEXTURE_LAYOUT_UNKNOWN;
                    Flags := 0 |} |}.

(** C2, a run.  A live texture whose second descriptor is a depth-stencil
    view adopts a resource with a render-target view while the
    render-target heap has no free slot.  Adopt returns false and gives the
    sampled-view slot back, the resource, descriptors, dimensions, format
    and tracked state are as before, but the depth-view flag, true before
    the call, is false after it. *)
Theorem Adopt_failure_clears_depth_flag :
  let t := Double.texture_depth in
  let r := run Double.handler
             (Adopt back_buffer DXGI_FORMAT_R8G8B8A8_UNORM
                DXGI_FORMAT_R8G8B8A8_UNORM DXGI_FORMAT_UNKNOWN
                D3D12_RESOURCE_STATE_COMMON t)
             (Double.with_slots RTVHeap 0 (Double.plentiful 1024)) in
  exists t',
    outcome r = Returned (false, t') /\
    allocation_failures (trace r) = [called (Allocate RTVHeap)] /\
    List.length (allocated (trace r)) = 1%nat /\
    allocated (trace r) = freed (trace r) /\
    m_resource t' = m_resource t /\
    m_srv_descriptor t' = m_srv_descriptor t /\
    m_rtv_or_dsv_descriptor t' = m_rtv_or_dsv_descriptor t /\
    (m_width t', m_height t', m_layers t', m_levels t', m_samples t')
    = (m_width t, m_height t, m_layers t, m_levels t, m_samples t) /\
    m_format t' = m_format t /\
    m_state t' = m_state t /\
    m_is_depth_view t = true /\
    m_is_depth_view t' = false /\
    t' <> t.
Proof.
  eexists. vm_compute. repeat split; try reflexivity. discriminate.
Qed.

(** The sibling: Create on the same object, with the same heap exhausted,
    leaves the flag alone. *)
Lemma Create_failure_keeps_depth_flag :
  let t := Double.texture_depth in
  let r := run Double.handler
             (Create (H := Double.decls) 640 480 1 1 1
                DXGI_FORMAT_R8G8B8A8_UNORM DXGI_FORMAT_R8G8B8A8_UNORM
                DXGI_FORMAT_R8G8B8A8_UNORM DXGI_FORMAT_UNKNOWN 0 t)
             (Double.with_slots RTVHeap 0 (Double.plentiful 1024)) in
  outcome r = Returned (false, t) /\ m_is_depth_view t = true.
Proof. vm_compute. split; reflexivity. Qed.

(** ** Moves *)

(** C10. Both moves leave the source in the canonical empty state and
    carry over the resource, the two descriptor handles, the depth-view
    flag and the dimension attributes.  The move constructor copies neither
    the tracked usage-state nor the base format: both are the defaults of a
    fresh object.  The move assignment copies the tracked usage-state.  So
    for a source in a state other than the default one, the constructed
    object's state differs from the source's and the assigned object's
    state equals it. *)
Theorem moves_carry_over :
  forall (W : Type) (h : Handler W) (w : W) (this texture : Texture),
    let constructed := fst (Texture_move texture) in
    let carried (a : Texture) :=
      m_resource a = m_resource texture /\
      m_srv_descriptor a = m_srv_descriptor texture /\
      m_rtv_or_dsv_descriptor a = m_rtv_or_dsv_descriptor texture /\
      m_is_depth_view a = m_is_depth_view texture /\
      m_width a = m_width texture /\ m_height a = m_height texture /\
      m_layers a = m_layers texture /\ m_levels a = m_levels texture /\
      m_samples a = m_samples texture in
    snd (Texture_move texture) = Texture_default /\
    carried constructed /\
    m_state constructed = m_state Texture_default /\
    m_format constructed = m_format Texture_default /\
    exists assigned,
      outcome (run h (Texture_move_assign this texture) w)
      = Returned (assigned, Texture_default) /\
      carried assigned /\
      m_state assigned = m_state texture /\
      (m_state texture <> m_state Texture_default ->
       m_state constructed <> m_state texture).
Proof.
  intros W h w this texture; cbv zeta.
  split; [reflexivity|].
  split; [cbn; repeat split|].
  split; [reflexivity|]. split; [reflexivity|].
  unfold Texture_move_assign, Destroy, ComPtr_Release.
  destruct this as [tw th tl tv ts tf [tr|] srv rtv st dv].
  all: run_all; eexists; (split; [reflexivity|]); cbn.
  all: repeat split; congruence.
Qed.

(** The move assignment does not copy the base format either: after
    [Destroy] the assigned object's format is [Unknown], whatever the
    source's was. *)
Lemma move_assign_format :
  forall (W : Type) (h : Handler W) (w : W) (this texture assigned left : Texture),
    outcome (run h (Texture_move_assign this texture) w)
    = Returned (assigned, left) ->
    m_format assigned = Unknown.
Proof.
  intros W h w this texture assigned left.
  unfold Texture_move_assign, Destroy, ComPtr_Release.
  destruct this as [tw th tl tv ts tf [tr|] srv rtv st dv].
  all: run_all; intros Hr; injection Hr as <- <-; reflexivity.
Qed.

(** A move out of a texture in the shader-read state. *)
Lemma moves_run :
  let t := Double.texture_rgba8 in
  m_state (fst (Texture_move t)) = D3D12_RESOURCE_STATE_COMMON /\
  m_state t = D3D12_RESOURCE_STATE_PIXEL_SHADER_RESOURCE /\
  exists assigned,
    outcome (run Double.handler (Texture_move_assign Texture_default t)
               (Double.plentiful 1024))
    = Returned (assigned, Texture_default) /\
    m_state assigned = D3D12_RESOURCE_STATE_PIXEL_SHADER_RESOURCE /\
    m_resource assigned = m_resource t.
Proof.
  cbv zeta. split; [reflexivity|]. split; [reflexivity|].
  eexists. vm_compute. repeat split; reflexivity.
Qed.

(** ** Scenarios *)

Definition all_ab : Memory := fun _ => xab.

(** Create a 256 x 256 single-sample R8 texture with a sampled view, then
    load 256 x 256 bytes of 0xAB with a stride of 256 through a 16 MiB
    stream buffer: the streaming sub-path is used, one buffer-to-texture
    copy is recorded between the two transitions, the bytes are in the
    upload memory and the object is back in the shader-read state. *)
Example scenario_streaming_upload :
  let r := run Double.handler
             ('(_, t) <- Create (H := Double.decls) 256 256 1 1 1
                           DXGI_FORMAT_R8_UNORM DXGI_FORMAT_R8_UNORM
                           DXGI_FORMAT_UNKNOWN DXGI_FORMAT_UNKNOWN 0
                           Texture_default ;;
              LoadData (H := Double.decls) 0 0 256 256 all_ab 0 256 t
                Double.zeros)
             (Double.plentiful 16777216) in
  route (trace r) = Some Streaming /\
  stream_ops (trace r) = [OpReserve 65536 512 true] /\
  cmds (trace r) =
    [CmdBarrier D3D12_RESOURCE_STATE_PIXEL_SHADER_RESOURCE
       D3D12_RESOURCE_STATE_COPY_DEST;
     CmdCopyTextureRegion 0 0;
     CmdBarrier D3D12_RESOURCE_STATE_COPY_DEST
       D3D12_RESOURCE_STATE_PIXEL_SHADER_RESOURCE] /\
  match outcome r with
  | Returned (ok, t, host) =>
      ok = true /\ IsValid t = true /\ m_format t = R8 /\
      m_state t = D3D12_RESOURCE_STATE_PIXEL_SHADER_RESOURCE /\
      host 0 = xab /\ host 65535 = xab /\ host 65536 = x00
  | Aborted _ => False
  end.
Proof. vm_compute. repeat split; reflexivity. Qed.

(** The same upload when the stream buffer turns down the reservation
    twice: one submission in between, failure, nothing recorded. *)
Example scenario_stream_buffer_exhausted :
  let t := Double.texture_rgba8 in
  let r := run Double.handler
             (LoadData (H := Double.decls) 0 0 64 64 all_ab 0 256 t Double.zeros)
             (Double.with_script [false; false] (Double.plentiful 16777216)) in
  outcome r = Returned (false, t, Double.zeros) /\
  stream_ops (trace r) =
    [OpReserve 16384 512 false; OpSubmit false; OpReserve 16384 512 false] /\
  cmds (trace r) = [].
Proof. vm_compute. repeat split; reflexivity. Qed.

(** Two transitions in a row to the same state: one barrier in all. *)
Example scenario_transition_twice :
  let r := run Double.handler
             (t <- TransitionToState D3D12_RESOURCE_STATE_COPY_DEST
                     Double.texture_rgba8 ;;
              TransitionToState D3D12_RESOURCE_STATE_COPY_DEST t)
             (Double.plentiful 1024) in
  barriers (trace r) =
    [(1, m_resource Double.texture_rgba8,
      D3D12_RESOURCE_STATE_PIXEL_SHADER_RESOURCE,
      D3D12_RESOURCE_STATE_COPY_DEST)].
Proof. vm_compute. reflexivity. Qed.

(** * The rest of the file

    The constructor from a resource, the destructor, and what the trace of
    the other methods shows beyond the statements above. *)

(** [GetDesc]: a call through the resource pointer; on a null pointer there
    is nothing to read. *)
Definition GetDesc (t : Texture) : option D3D12_RESOURCE_DESC :=
  match m_resource t with
  | Some r => Some (res_desc r)
  | None => None
  end.

(** [Texture(ID3D12Resource* resource, D3D12_RESOURCE_STATES state)]: the
    initialiser list takes the resource, the body reads its description.
    Nothing is assigned from [state].  With a null pointer [GetDesc] has
    nothing to read and there is no object. *)
Definition Texture_of_resource (resource : ComPtr)
    (state : D3D12_RESOURCE_STATES) : option Texture :=
  let this :=
    {| m_width := m_width Texture_default; m_height := m_height Texture_default;
       m_layers := m_layers Texture_default; m_levels := m_levels Texture_default;
       m_samples := m_samples Texture_default;
       m_format := m_format Texture_default;
       m_resource := resource;
       m_srv_descriptor := m_srv_descriptor Texture_default;
       m_rtv_or_dsv_descriptor := m_rtv_or_dsv_descriptor Texture_default;
       m_state := m_state Texture_default;
       m_is_depth_view := m_is_depth_view Texture_default |} in
  match GetDesc this with
  | None => None
  | Some desc =>
      Some {| m_width := U.u16 (Width desc); m_height := U.u16 (Height desc);
              m_layers := U.u8 (DepthOrArraySize desc);
              m_levels := U.u8 (MipLevels desc);
              m_samples := U.u8 (SampleDesc_Count desc);
              m_format := LookupBaseFormat (Format desc);
              m_resource := m_resource this;
              m_srv_descriptor := m_srv_descriptor this;
              m_rtv_or_dsv_descriptor := m_rtv_or_dsv_descriptor this;
              m_state := m_state this;
              m_is_depth_view := m_is_depth_view this |}
  end.

(** [~Texture()]: [Destroy()] with its default argument. *)
Definition Texture_dtor (this : Texture) : Prog Texture := Destroy true this.

(** References dropped, views materialised, stream-buffer commits and copy
    commands, as a trace shows them. *)
Definition release_of (e : Event) : option ID3D12Resource :=
  match ev_call e with
  | Release r => Some r
  | _ => None
  end.
Definition releases := collect release_of.

Definition view_of (e : Event) : option Called :=
  match ev_call e with
  | CreateShaderResourceView r d a => Some (called (CreateShaderResourceView r d a))
  | CreateRenderTargetView r d a => Some (called (CreateRenderTargetView r d a))
  | CreateDepthStencilView r d a => Some (called (CreateDepthStencilView r d a))
  | _ => None
  end.
Definition views := collect view_of.

Definition commit_of (e : Event) : option Z :=
  match ev_call e with
  | CommitMemory size => Some size
  | _ => None
  end.
Definition commits := collect commit_of.

Definition copy_region_of (e : Event)
    : option (D3D12_TEXTURE_COPY_LOCATION * (Z * Z * Z)
              * D3D12_TEXTURE_COPY_LOCATION * D3D12_BOX) :=
  match ev_call e with
  | CopyTextureRegion _ dst x y z src box => Some (dst, (x, y, z), src, box)
  | _ => None
  end.
Definition copy_regions := collect copy_region_of.

(** ** The format table *)

(** X1. The table is a bijection between the seven base formats and the
    seven native formats it lists: looking up the native encoding of a base
    format gives that base format back, so two base formats never share an
    encoding; a native format of the table comes back from the round trip
    through its base format, and a native format outside the table is
    looked up as [Unknown], whose encoding is [DXGI_FORMAT_UNKNOWN]. *)
Theorem format_table_round_trip :
  (forall f, LookupBaseFormat (GetDXGIFormat f) = f) /\
  (forall f g, GetDXGIFormat f = GetDXGIFormat g -> f = g) /\
  (forall d, In d s_dxgi_mapping -> GetDXGIFormat (LookupBaseFormat d) = d) /\
  (forall d, ~ In d s_dxgi_mapping ->
     LookupBaseFormat d = Unknown /\
     GetDXGIFormat (LookupBaseFormat d) = DXGI_FORMAT_UNKNOWN).
Proof.
  split; [exact LookupBaseFormat_GetDXGIFormat|].
  split.
  { intros f g Heq.
    rewrite <- (LookupBaseFormat_GetDXGIFormat f),
            <- (LookupBaseFormat_GetDXGIFormat g).
    now rewrite Heq. }
  split.
  - intros d Hin. cbn in Hin.
    repeat (destruct Hin as [<-|Hin]; [reflexivity|]). contradiction.
  - intros d Hout.
    assert (Hu : LookupBaseFormat d = Unknown).
    { unfold LookupBaseFormat, s_dxgi_mapping. cbn [LookupBaseFormat_from].
      repeat match goal with
             | |- context [if ?a =? d then _ else _] =>
                 destruct (Z.eqb_spec a d) as [Heq|_];
                 [exfalso; apply Hout; rewrite <- Heq; cbn; tauto|]
             end.
      reflexivity. }
    split; [exact Hu | rewrite Hu; reflexivity].
Qed.

(** ** The constructor from a resource *)

(** X2. The constructor from a resource reads the dimensions and the format
    back from the resource's description, leaves the descriptors empty, and
    does not record the state it is given: the tracked state is the default
    one whatever [state] is.  Adopt with no view format on an empty object
    makes no call to any collaborator and yields the same object with
    [state] recorded. *)
Theorem Texture_of_resource_ignores_state :
  forall (resource : ID3D12Resource) (state : D3D12_RESOURCE_STATES),
    exists t,
      Texture_of_resource (Some resource) state = Some t /\
      GetDesc t = Some (res_desc resource) /\
      m_width t = U.u16 (Width (res_desc resource)) /\
      m_height t = U.u16 (Height (res_desc resource)) /\
      m_format t = LookupBaseFormat (Format (res_desc resource)) /\
      m_srv_descriptor t = DescriptorHandle_empty /\
      m_rtv_or_dsv_descriptor t = DescriptorHandle_empty /\
      m_state t = D3D12_RESOURCE_STATE_COMMON /\
      Texture_of_resource (Some resource) D3D12_RESOURCE_STATE_COMMON = Some t /\
      forall (W : Type) (h : Handler W) (w : W),
        let r := run h (Adopt resource DXGI_FORMAT_UNKNOWN DXGI_FORMAT_UNKNOWN
                          DXGI_FORMAT_UNKNOWN state Texture_default) w in
        outcome r = Returned (true, set_state state t) /\ trace r = [].
Proof.
  intros resource state. eexists. split; [reflexivity|].
  do 8 (split; [reflexivity|]).
  intros W h w. cbn. split; reflexivity.
Qed.

(** ** Destroy *)

(** X3. Destroy, in either mode, leaves an invalid object with zero
    dimensions, no format and a false depth-view flag, but does not reset
    the tracked state.  It drops the reference to the resource exactly when
    there is one.  The deferred mode hands both descriptors and the
    resource to the deferred path and frees nothing at once; the immediate
    mode frees both descriptors at once and defers nothing.  In both modes
    the second descriptor goes to the depth-stencil heap when the
    depth-view flag is set and to the render-target heap otherwise. *)
Theorem Destroy_effect :
  forall (W : Type) (h : Handler W) (w : W) (defer : bool) (t : Texture),
    let r := run h (Destroy defer t) w in
    let second_heap := if m_is_depth_view t then DSVHeap else RTVHeap in
    exists t',
      outcome r = Returned t' /\
      IsValid t' = false /\
      (m_width t', m_height t', m_layers t', m_levels t', m_samples t')
      = (0, 0, 0, 0, 0) /\
      m_format t' = Unknown /\
      m_is_depth_view t' = false /\
      m_state t' = m_state t /\
      releases (trace r)
      = match m_resource t with Some x => [x] | None => [] end /\
      (if defer
       then deferred (trace r)
            = [DeferredDescriptor DescriptorHeap (m_srv_descriptor t);
               DeferredDescriptor second_heap (m_rtv_or_dsv_descriptor t);
               DeferredResource (m_resource t)] /\
            freed (trace r) = []
       else deferred (trace r) = [] /\
            freed (trace r)
            = [(DescriptorHeap, m_srv_descriptor t);
               (second_heap, m_rtv_or_dsv_descriptor t)]).
Proof.
  intros W h w defer t; cbv zeta.
  unfold Destroy, ComPtr_Release.
  destruct t as [tw th tl tv ts tf [tr|] srv rtv st dv], defer, dv.
  all: cbn; eexists; repeat split; reflexivity.
Qed.

(** ** Moves and destruction together *)

(** X4. Ownership after a move.  Destroying the object a move left behind
    drops no reference and hands out only empty handles and a null
    resource; destroying the object that received the move drops the
    reference the source held.  So over the two destructors the resource is
    released exactly as often as it would have been without the move. *)
Theorem move_then_destroy :
  forall (W : Type) (h : Handler W) (w w' w'' : W) (defer : bool)
         (texture : Texture),
    let constructed := fst (Texture_move texture) in
    let left := snd (Texture_move texture) in
    let r_left := run h (Destroy defer left) w in
    let r_constructed := run h (Destroy defer constructed) w' in
    let r_plain := run h (Destroy defer texture) w'' in
    releases (trace r_left) = [] /\
    deferred (trace r_left)
    = (if defer
       then [DeferredDescriptor DescriptorHeap DescriptorHandle_empty;
             DeferredDescriptor RTVHeap DescriptorHandle_empty;
             DeferredResource None]
       else []) /\
    freed (trace r_left)
    = (if defer then []
       else [(DescriptorHeap, DescriptorHandle_empty);
             (RTVHeap, DescriptorHandle_empty)]) /\
    releases (trace r_left) ++ releases (trace r_constructed)
    = releases (trace r_plain) /\
    deferred (trace r_constructed) = deferred (trace r_plain) /\
    freed (trace r_constructed) = freed (trace r_plain).
Proof.
  intros W h w w' w'' defer texture; cbv zeta.
  unfold Destroy, ComPtr_Release.
  destruct texture as [tw th tl tv ts tf [tr|] srv rtv st dv], defer, dv.
  all: cbn; repeat split; reflexivity.
Qed.

(** X5. The move assignment first sends the old contents of the assigned
    object to the deferred path, as the destructor would, drops the
    reference it held, and frees nothing at once; the source's resource is
    not released. *)
Theorem move_assign_destroys_old :
  forall (W : Type) (h : Handler W) (w : W) (this texture : Texture),
    let r := run h (Texture_move_assign this texture) w in
    deferred (trace r) = deferred (trace (run h (Texture_dtor this) w)) /\
    deferred (trace r) = deferred_contents this /\
    freed (trace r) = [] /\
    releases (trace r)
    = match m_resource this with Some x => [x] | None => [] end.
Proof.
  intros W h w this texture; cbv zeta.
  unfold Texture_move_assign, Texture_dtor, Destroy, ComPtr_Release,
    deferred_contents.
  destruct this as [tw th tl tv ts tf [tr|] srv rtv st dv]; destruct dv.
  all: cbn; repeat split; reflexivity.
Qed.

(** ** Descriptors over the life of an object *)

(** Descriptors going back to a heap, at once or through the deferred
    path, and the heaps that turned an allocation down. *)
Definition descriptor_return_of (e : Event) : option (Heap * DescriptorHandle) :=
  match ev_call e with
  | Free heap dh => Some (heap, dh)
  | DeferDescriptorDestruction heap dh => Some (heap, dh)
  | _ => None
  end.
Definition descriptor_returns := collect descriptor_return_of.

Definition failed_heap_of (e : Event) : option Heap :=
  match e with
  | Ev c r =>
      match c in Call X return X -> option Heap with
      | Allocate heap => fun a =>
          match a with None => Some heap | Some _ => None end
      | _ => fun _ => None
      end r
  end.
Definition failed_heaps := collect failed_heap_of.

(** The native resources asked of the device, with the answer. *)
Definition resource_creation_of (e : Event)
    : option (D3D12_RESOURCE_DESC * D3D12_RESOURCE_STATES
              * option D3D12_CLEAR_VALUE * (HRESULT + ID3D12Resource)) :=
  match e with
  | Ev c r =>
      match c in Call X
            return X -> option (D3D12_RESOURCE_DESC * D3D12_RESOURCE_STATES
                                * option D3D12_CLEAR_VALUE
                                * (HRESULT + ID3D12Resource)) with
      | CreateCommittedResource _ _ desc state clear => fun a =>
          Some (desc, state, clear, a)
      | _ => fun _ => None
      end r
  end.
Definition resource_creations := collect resource_creation_of.

(** X6. Each of the three descriptor creations makes exactly one allocation
    attempt, on its own heap, and frees nothing.  When the heap has no slot
    it returns false, leaves the caller's handle as it was and creates no
    view; otherwise it returns the slot and creates exactly one view there,
    multisampled exactly when asked, a sampled view of a single-sample
    resource covering one mip level. *)
Theorem descriptor_creation :
  forall (W : Type) (h : Handler W) (w : W) (resource : ID3D12Resource)
         (format : DXGI_FORMAT) (multisampled : bool) (dh : DescriptorHandle),
    let dim := if multisampled then TEXTURE2DMS else TEXTURE2D in
    let shape (heap : Heap) (r : Run W (bool * DescriptorHandle))
              (view : DescriptorHandle -> Called) :=
      allocation_attempts (trace r) = [called (Allocate heap)] /\
      descriptor_returns (trace r) = [] /\
      match fst (h _ (Allocate heap) w) with
      | None => outcome r = Returned (false, dh) /\ views (trace r) = []
      | Some slot =>
          outcome r = Returned (true, slot) /\ views (trace r) = [view slot]
      end in
    shape DescriptorHeap
      (run h (CreateSRVDescriptor resource format multisampled dh) w)
      (fun slot =>
         called (CreateShaderResourceView resource
                   {| srv_Format := format; srv_ViewDimension := dim;
                      srv_Shader4ComponentMapping :=
                        D3D12_DEFAULT_SHADER_4_COMPONENT_MAPPING;
                      srv_Texture2D_MipLevels :=
                        if multisampled then 0 else 1 |}
                   (cpu_handle slot))) /\
    shape RTVHeap
      (run h (CreateRTVDescriptor resource format multisampled dh) w)
      (fun slot =>
         called (CreateRenderTargetView resource
                   {| rtv_Format := format; rtv_ViewDimension := dim |}
                   (cpu_handle slot))) /\
    shape DSVHeap
      (run h (CreateDSVDescriptor resource format multisampled dh) w)
      (fun slot =>
         called (CreateDepthStencilView resource
                   {| dsv_Format := format; dsv_ViewDimension := dim;
                      dsv_Flags := D3D12_DSV_FLAG_NONE |}
                   (cpu_handle slot))).
Proof.
  intros W h w resource format multisampled dh; cbv zeta.
  unfold CreateSRVDescriptor, CreateRTVDescriptor, CreateDSVDescriptor.
  repeat split; cbn.
  all: try match goal with
           | |- context [fst (?hh ?X (Allocate ?heap) ?ww)] =>
               destruct (fst (hh X (Allocate heap) ww)) eqn:?
           end.
  all: cbn; try split; reflexivity.
Qed.

Section Lifetime.
Context `{GPUTextureDecls}.

(** X7. What a successful Create leaves in the object is what the call
    obtained: the resource is the one the device returned for the one
    creation request, made with the requested width, format and sample
    count and in the state the object then tracks; a clear value went with
    the request exactly when an auxiliary view format was given; the
    descriptors held are exactly the slots handed out during the call, an
    unrequested one being empty; one view was created per slot; and the
    depth-view flag is set exactly when the second descriptor came from the
    depth-stencil heap. *)
Theorem Create_holds_what_it_obtained :
  forall (W : Type) (h : Handler W) (w : W)
         (width height layers levels samples : Z)
         (format srv_format rtv_format dsv_format : DXGI_FORMAT)
         (flags : D3D12_RESOURCE_FLAGS) (t t' : Texture),
    let r := run h (Create width height layers levels samples format
                      srv_format rtv_format dsv_format flags t) w in
    outcome r = Returned (true, t') ->
    (exists desc clear resource,
       resource_creations (trace r) = [(desc, m_state t', clear, inr resource)] /\
       m_resource t' = Some resource /\
       Width desc = width /\ Format desc = format /\
       SampleDesc_Count desc = samples /\ Flags desc = flags /\
       (clear = None <->
        rtv_format = DXGI_FORMAT_UNKNOWN /\ dsv_format = DXGI_FORMAT_UNKNOWN)) /\
    allocated (trace r)
    = (if neqb srv_format DXGI_FORMAT_UNKNOWN
       then [(DescriptorHeap, m_srv_descriptor t')] else []) ++
      (if neqb rtv_format DXGI_FORMAT_UNKNOWN
       then [(RTVHeap, m_rtv_or_dsv_descriptor t')]
       else if neqb dsv_format DXGI_FORMAT_UNKNOWN
       then [(DSVHeap, m_rtv_or_dsv_descriptor t')] else []) /\
    (srv_format = DXGI_FORMAT_UNKNOWN ->
       m_srv_descriptor t' = DescriptorHandle_empty) /\
    (rtv_format = DXGI_FORMAT_UNKNOWN -> dsv_format = DXGI_FORMAT_UNKNOWN ->
       m_rtv_or_dsv_descriptor t' = DescriptorHandle_empty) /\
    List.length (views (trace r)) = List.length (allocated (trace r)) /\
    (m_is_depth_view t' = true <->
     In (DSVHeap, m_rtv_or_dsv_descriptor t') (allocated (trace r))).
Proof.
  intros W h w width height layers levels samples format srv_format
    rtv_format dsv_format flags t t' r; subst r.
  unfold Create, Create_commit, Destroy, CreateSRVDescriptor,
    CreateRTVDescriptor, CreateDSVDescriptor, Assert, ComPtr_Release.
  destruct t as [tw th tl tv ts tf [tr|] srv rtv st dv].
  all: remember (samples >? 1) as ms.
  all: run_all; intros Hr; try discriminate Hr.
  all: injection Hr as <-; cbn.
  all: unfold neqb in *.
  all: (split;
        [do 3 eexists; split; [reflexivity|];
         do 5 (split; [reflexivity|]);
         split; [intros Hc; first [congruence | split; lia]
                | intros [? ?]; first [reflexivity | exfalso; lia]]
        |]).
  all: split; [reflexivity|].
  all: split; [intros; first [reflexivity | exfalso; lia]|].
  all: split; [intros; first [reflexivity | exfalso; lia]|].
  all: split; [reflexivity|].
  all: split; [intros Hc; first [congruence | cbn; tauto]
              | intros Hin; cbn in Hin;
                first [reflexivity | exfalso; intuition congruence]].
Qed.

(** X8. Create and Destroy fit together: after a successful Create, an
    immediate Destroy gives every slot handed out during the Create back to
    the heap it came from, drops the one reference to the resource the
    device returned, and leaves an invalid object. *)
Theorem Create_then_Destroy :
  forall (W : Type) (h : Handler W) (w : W)
         (width height layers levels samples : Z)
         (format srv_format rtv_format dsv_format : DXGI_FORMAT)
         (flags : D3D12_RESOURCE_FLAGS) (t t' : Texture)
         (W2 : Type) (h2 : Handler W2) (w2 : W2),
    let r := run h (Create width height layers levels samples format
                      srv_format rtv_format dsv_format flags t) w in
    let d := run h2 (Destroy false t') w2 in
    outcome r = Returned (true, t') ->
    (forall slot, In slot (allocated (trace r)) -> In slot (freed (trace d))) /\
    (exists resource,
       m_resource t' = Some resource /\ releases (trace d) = [resource]) /\
    deferred (trace d) = [] /\
    exists t'', outcome d = Returned t'' /\ IsValid t'' = false.
Proof.
  intros W h w width height layers levels samples format srv_format
    rtv_format dsv_format flags t t' W2 h2 w2 r d; subst r d.
  unfold Create, Create_commit, Destroy, CreateSRVDescriptor,
    CreateRTVDescriptor, CreateDSVDescriptor, Assert, ComPtr_Release.
  destruct t as [tw th tl tv ts tf [tr|] srv rtv st dv].
  all: remember (samples >? 1) as ms.
  all: run_all; intros Hr; try discriminate Hr.
  all: injection Hr as <-; cbn in *; try congruence.
  all: split; [intros slot Hin; tauto|].
  all: split; [eexists; split; reflexivity|].
  all: split; [reflexivity|].
  all: eexists; split; reflexivity.
Qed.

End Lifetime.

(** ** Adopt, beyond failure atomicity *)

(** X9. Adopt returns true when no allocation is turned down (and at most
    one auxiliary view format is given).  A successful Adopt holds the
    adopted resource, takes the dimensions and the format from the
    resource's own description (truncated to the fields' widths), records
    the given state, and sets the depth-view flag exactly when a depth view
    format was given.  Unlike Create it does not destroy what the object
    held before: the old descriptors are neither freed nor handed to the
    deferred path, and the reference to the old resource is dropped at
    once. *)
Theorem Adopt_success :
  forall (W : Type) (h : Handler W) (w : W) (texture : ID3D12Resource)
         (srv_format rtv_format dsv_format : DXGI_FORMAT)
         (state : D3D12_RESOURCE_STATES) (t : Texture),
    let r := run h (Adopt texture srv_format rtv_format dsv_format state t) w in
    let desc := res_desc texture in
    (allocation_failures (trace r) = [] ->
     rtv_format = DXGI_FORMAT_UNKNOWN \/ dsv_format = DXGI_FORMAT_UNKNOWN ->
     exists t', outcome r = Returned (true, t')) /\
    (forall t', outcome r = Returned (true, t') ->
       m_resource t' = Some texture /\
       GetDesc t' = Some desc /\
       m_width t' = U.u16 (Width desc) /\
       m_height t' = U.u16 (Height desc) /\
       m_layers t' = U.u8 (DepthOrArraySize desc) /\
       m_levels t' = U.u8 (MipLevels desc) /\
       m_samples t' = U.u8 (SampleDesc_Count desc) /\
       m_format t' = LookupBaseFormat (Format desc) /\
       m_state t' = state /\
       (m_is_depth_view t' = true <->
        rtv_format = DXGI_FORMAT_UNKNOWN /\ dsv_format <> DXGI_FORMAT_UNKNOWN) /\
       descriptor_returns (trace r) = [] /\
       deferred (trace r) = [] /\
       releases (trace r)
       = match m_resource t with Some x => [x] | None => [] end).
Proof.
  intros W h w texture srv_format rtv_format dsv_format state t r desc;
    subst r desc.
  unfold Adopt, CreateSRVDescriptor, CreateRTVDescriptor, CreateDSVDescriptor,
    Assert, ComPtr_Release.
  destruct t as [tw th tl tv ts tf [tr|] srv rtv st dv].
  all: remember (SampleDesc_Count (res_desc texture) >? 1) as ms.
  all: run_all; (split; [intros Hok Hone | intros t' Hr]).
  all: try discriminate; try (exfalso; unfold neqb in *; lia); eauto.
  all: injection Hr as <-; cbn; unfold neqb in *.
  all: do 9 (split; [reflexivity|]).
  all: split; [|repeat split; reflexivity].
  all: split; [intros Hc; first [discriminate Hc | split; lia]
              | intros [? ?]; first [reflexivity | exfalso; lia]].
Qed.

(** X10. A failing Adopt: every field but the depth-view flag is as it
    was; the flag is untouched when the heap that turned the allocation
    down is the one of the sampled view, and false in every other case;
    nothing goes to the deferred path and every slot handed out during the
    call is given back. *)
Theorem Adopt_failure_effect :
  forall (W : Type) (h : Handler W) (w : W) (texture : ID3D12Resource)
         (srv_format rtv_format dsv_format : DXGI_FORMAT)
         (state : D3D12_RESOURCE_STATES) (t t' : Texture),
    let r := run h (Adopt texture srv_format rtv_format dsv_format state t) w in
    outcome r = Returned (false, t') ->
    set_is_depth_view (m_is_depth_view t) t' = t /\
    ((failed_heaps (trace r) = [DescriptorHeap] /\ t' = t) \/
     ((failed_heaps (trace r) = [RTVHeap] \/
       failed_heaps (trace r) = [DSVHeap]) /\
      m_is_depth_view t' = false)) /\
    deferred (trace r) = [] /\
    (forall slot, In slot (allocated (trace r)) -> In slot (freed (trace r))).
Proof.
  intros W h w texture srv_format rtv_format dsv_format state t t' r; subst r.
  unfold Adopt, CreateSRVDescriptor, CreateRTVDescriptor, CreateDSVDescriptor,
    Assert, ComPtr_Release.
  destruct t as [tw th tl tv ts tf [tr|] srv rtv st dv].
  all: remember (SampleDesc_Count (res_desc texture) >? 1) as ms.
  all: run_all; intros Hr; try discriminate Hr.
  all: injection Hr as <-; cbn.
  all: split; [reflexivity|]; split; [|split; [reflexivity | auto]].
  all: first [ left; split; reflexivity
             | right; split; [left; reflexivity | reflexivity]
             | right; split; [right; reflexivity | reflexivity] ].
Qed.

Lemma Adopt_failure_effect_run :
  let t := Double.texture_depth in
  let r := run Double.handler
             (Adopt back_buffer DXGI_FORMAT_R8G8B8A8_UNORM
                DXGI_FORMAT_UNKNOWN DXGI_FORMAT_D16_UNORM
                D3D12_RESOURCE_STATE_COMMON t)
             (Double.with_slots DSVHeap 0 (Double.plentiful 1024)) in
  outcome r = Returned (false, set_is_depth_view false t) /\
  deferred (trace r) = [] /\
  forall slot, In slot (allocated (trace r)) -> In slot (freed (trace r)).
Proof.
  cbv zeta.
  assert (Hr : outcome
                 (run Double.handler
                    (Adopt back_buffer DXGI_FORMAT_R8G8B8A8_UNORM
                       DXGI_FORMAT_UNKNOWN DXGI_FORMAT_D16_UNORM
                       D3D12_RESOURCE_STATE_COMMON Double.texture_depth)
                    (Double.with_slots DSVHeap 0 (Double.plentiful 1024)))
               = Returned (false, set_is_depth_view false Double.texture_depth))
    by (vm_compute; reflexivity).
  split; [exact Hr|].
  exact (proj2 (proj2 (Adopt_failure_effect _ _ _ _ _ _ _ _ _ _ Hr))).
Defined.

(** X11. What the cleared flag costs.  When a failing Adopt on an object
    whose second descriptor is a depth-stencil view got past the sampled
    view, a later Destroy of that object, in either mode, returns the
    depth-stencil descriptor to the render-target heap; on the untouched
    object it would have gone to the depth-stencil heap. *)
Theorem Adopt_failure_then_Destroy :
  forall (W : Type) (h : Handler W) (w : W) (texture : ID3D12Resource)
         (srv_format rtv_format dsv_format : DXGI_FORMAT)
         (state : D3D12_RESOURCE_STATES) (t t' : Texture)
         (W2 : Type) (h2 : Handler W2) (w2 : W2) (defer : bool),
    let r := run h (Adopt texture srv_format rtv_format dsv_format state t) w in
    m_is_depth_view t = true ->
    outcome r = Returned (false, t') ->
    failed_heaps (trace r) <> [DescriptorHeap] ->
    descriptor_returns (trace (run h2 (Destroy defer t') w2))
    = [(DescriptorHeap, m_srv_descriptor t);
       (RTVHeap, m_rtv_or_dsv_descriptor t)] /\
    descriptor_returns (trace (run h2 (Destroy defer t) w2))
    = [(DescriptorHeap, m_srv_descriptor t);
       (DSVHeap, m_rtv_or_dsv_descriptor t)].
Proof.
  intros W h w texture srv_format rtv_format dsv_format state t t'
    W2 h2 w2 defer r Hdepth Hr Hheap.
  destruct (Adopt_failure_frame W h w texture srv_format rtv_format
              dsv_format state t t' Hr) as [Hcases _].
  assert (Ht' : t' = set_is_depth_view false t).
  { destruct Hcases as [[Hfail _]|[_ Ht']]; [|exact Ht'].
    exfalso. apply Hheap. subst r.
    revert Hr Hfail.
    unfold Adopt, CreateSRVDescriptor, CreateRTVDescriptor,
      CreateDSVDescriptor, Assert, ComPtr_Release.
    destruct t as [tw th tl tv ts tf [tr|] srv rtv st dv].
    all: remember (SampleDesc_Count (res_desc texture) >? 1) as ms.
    all: run_all; intros Hr Hfail; try discriminate Hr;
         try discriminate Hfail; reflexivity. }
  subst t'. unfold Destroy, ComPtr_Release.
  destruct t as [tw th tl tv ts tf [tr|] srv rtv st dv]; cbn in Hdepth;
    subst dv; destruct defer; cbn; split; reflexivity.
Qed.

Lemma Adopt_failure_then_Destroy_run :
  descriptor_returns
    (trace (run Double.handler
              (Destroy true (set_is_depth_view false Double.texture_depth))
              (Double.plentiful 1024)))
  = [(DescriptorHeap, DescriptorHandle_empty);
     (RTVHeap, m_rtv_or_dsv_descriptor Double.texture_depth)].
Proof.
  refine (proj1 (Adopt_failure_then_Destroy
                   Double.World Double.handler
                   (Double.with_slots RTVHeap 0 (Double.plentiful 1024))
                   back_buffer DXGI_FORMAT_R8G8B8A8_UNORM
                   DXGI_FORMAT_R8G8B8A8_UNORM DXGI_FORMAT_UNKNOWN
                   D3D12_RESOURCE_STATE_COMMON Double.texture_depth
                   (set_is_depth_view false Double.texture_depth)
                   Double.World Double.handler (Double.plentiful 1024) true
                   eq_refl _ _)).
  - vm_compute. reflexivity.
  - vm_compute. discriminate.
Defined.

(** ** The row copy, whatever the pitches *)

(** Without a wrapping size both branches put every row in place. *)
Lemma copy_pixels :
  forall (src_mem : Memory) (src_data src_pitch height : Z)
         (dst_mem : Memory) (dst_data dst_pitch row col : Z),
    0 <= src_pitch -> 0 <= dst_pitch -> 0 <= height ->
    dst_pitch * height < 2 ^ 32 ->
    0 <= row < height -> 0 <= col < Z.min src_pitch dst_pitch ->
    CopyToUploadBuffer src_mem src_data src_pitch height
      dst_mem dst_data dst_pitch (dst_data + row * dst_pitch + col)
    = src_mem (src_data + row * src_pitch + col).
Proof.
  intros src_mem src_data src_pitch height dst_mem dst_data dst_pitch row col
    Hsp Hdp Hh Hfit Hrow Hcol.
  unfold CopyToUploadBuffer.
  destruct (Z.eqb_spec src_pitch dst_pitch) as [->|Hne].
  - replace (dst_data + row * dst_pitch + col)
      with (dst_data + (row * dst_pitch + col)) by lia.
    replace (src_data + row * dst_pitch + col)
      with (src_data + (row * dst_pitch + col)) by lia.
    apply memcpy_inside.
    unfold U.mul32, U.u32, U.wrap. rewrite Z.mod_small by nia. nia.
  - apply copy_rows_copied; lia.
Qed.

(** X12. Whatever the two pitches are, as long as destination pitch times
    height stays below 2^32 every row arrives: byte [col] of row [row] of
    the destination is byte [col] of row [row] of the source, for every
    column below the smaller pitch. *)
Theorem CopyToUploadBuffer_every_row :
  forall (src_mem : Memory) (src_data src_pitch height : Z)
         (dst_mem : Memory) (dst_data dst_pitch row col : Z),
    U.in_u32 src_pitch -> U.in_u32 dst_pitch -> U.in_u32 height ->
    dst_pitch * height < 2 ^ 32 ->
    0 <= row < height -> 0 <= col < Z.min src_pitch dst_pitch ->
    CopyToUploadBuffer src_mem src_data src_pitch height
      dst_mem dst_data dst_pitch (dst_data + row * dst_pitch + col)
    = src_mem (src_data + row * src_pitch + col).
Proof.
  unfold U.in_u32. intros. apply copy_pixels; lia.
Qed.

Lemma CopyToUploadBuffer_every_row_run :
  CopyToUploadBuffer all_ab 0 4 3 Double.zeros 16 4 (16 + 2 * 4 + 3) = xab /\
  CopyToUploadBuffer all_ab 0 5 3 Double.zeros 16 8 (16 + 2 * 8 + 4) = xab.
Proof.
  split.
  - apply (CopyToUploadBuffer_every_row all_ab 0 4 3 Double.zeros 16 4 2 3);
      unfold U.in_u32; lia.
  - apply (CopyToUploadBuffer_every_row all_ab 0 5 3 Double.zeros 16 8 2 4);
      unfold U.in_u32; lia.
Defined.

(** X13. Nothing to copy: with a height of zero, or with either pitch zero,
    the destination is left exactly as it was. *)
Theorem CopyToUploadBuffer_nothing_to_copy :
  forall (src_mem : Memory) (src_data src_pitch height : Z)
         (dst_mem : Memory) (dst_data dst_pitch : Z),
    U.in_u32 src_pitch -> U.in_u32 dst_pitch -> U.in_u32 height ->
    height = 0 \/ src_pitch = 0 \/ dst_pitch = 0 ->
    forall a,
      CopyToUploadBuffer src_mem src_data src_pitch height
        dst_mem dst_data dst_pitch a = dst_mem a.
Proof.
  unfold U.in_u32.
  intros src_mem src_data src_pitch height dst_mem dst_data dst_pitch
    Hsp Hdp Hh Hzero a.
  unfold CopyToUploadBuffer.
  destruct (Z.eqb_spec src_pitch dst_pitch) as [->|Hne].
  - apply memcpy_outside.
    assert (U.mul32 dst_pitch height = 0) as ->; [|lia].
    unfold U.mul32, U.u32, U.wrap.
    replace (dst_pitch * height) with 0 by nia. reflexivity.
  - apply copy_rows_untouched. intros row col Hrow Hcol. lia.
Qed.

Lemma CopyToUploadBuffer_nothing_to_copy_run :
  CopyToUploadBuffer all_ab 0 4 0 Double.zeros 0 4 0 = x00 /\
  CopyToUploadBuffer all_ab 0 0 9 Double.zeros 0 4 0 = x00.
Proof.
  split.
  - apply (CopyToUploadBuffer_nothing_to_copy all_ab 0 4 0 Double.zeros 0 4);
      unfold U.in_u32; lia.
  - apply (CopyToUploadBuffer_nothing_to_copy all_ab 0 0 9 Double.zeros 0 4);
      unfold U.in_u32; lia.
Defined.

(** ** The upload pipeline, step by step *)

(** The calls on the stream buffer that move its cursor or read it. *)
Definition stream_buffer_call_of (e : Event) : option Called :=
  match ev_call e with
  | ReserveMemory s a => Some (called (ReserveMemory s a))
  | GetCurrentHostPointer => Some (called GetCurrentHostPointer)
  | GetCurrentOffset => Some (called GetCurrentOffset)
  | CommitMemory s => Some (called (CommitMemory s))
  | GetBuffer => Some (called GetBuffer)
  | _ => None
  end.
Definition stream_buffer_calls := collect stream_buffer_call_of.

Definition host_pointer_of (e : Event) : option Z :=
  match e with
  | Ev c r =>
      match c in Call X return X -> option Z with
      | GetCurrentHostPointer => fun p => Some p
      | _ => fun _ => None
      end r
  end.
Definition host_pointers := collect host_pointer_of.

Definition stream_offset_of (e : Event) : option Z :=
  match e with
  | Ev c r =>
      match c in Call X return X -> option Z with
      | GetCurrentOffset => fun p => Some p
      | _ => fun _ => None
      end r
  end.
Definition stream_offsets := collect stream_offset_of.

Definition stream_buffer_of (e : Event) : option ComPtr :=
  match e with
  | Ev c r =>
      match c in Call X return X -> option ComPtr with
      | GetBuffer => fun p => Some p
      | _ => fun _ => None
      end r
  end.
Definition stream_buffers := collect stream_buffer_of.

Section Pipeline.
Context `{GPUTextureDecls}.

(** X14. The row pitch of an upload is always a multiple of the pitch
    alignment, and so is the size reserved; while the row width in bytes
    plus 255 stays below 2^32 the pitch is at least the row width and less
    than one alignment above it. *)
Theorem upload_pitch_aligned :
  forall (width height : Z) (t : Texture),
    upload_pitch_of width t mod D3D12_TEXTURE_DATA_PITCH_ALIGNMENT = 0 /\
    upload_size_of width height t mod D3D12_TEXTURE_DATA_PITCH_ALIGNMENT = 0 /\
    (0 <= width * GetPixelSize (m_format t) ->
     width * GetPixelSize (m_format t) + 255 < 2 ^ 32 ->
     width * GetPixelSize (m_format t) <= upload_pitch_of width t
       < width * GetPixelSize (m_format t)
         + D3D12_TEXTURE_DATA_PITCH_ALIGNMENT).
Proof.
  intros width height t.
  assert (Hp : exists k, upload_pitch_of width t = k * 256).
  { unfold upload_pitch_of, AlignUpPow2, D3D12_TEXTURE_DATA_PITCH_ALIGNMENT,
      U.add32.
    change (U.u32 (Z.lnot (U.u32 (256 - 1)))) with 4294967040.
    eexists. apply land_clear_low8. unfold U.u32, U.wrap.
    apply Z.mod_pos_bound. lia. }
  destruct Hp as [k Hk].
  unfold D3D12_TEXTURE_DATA_PITCH_ALIGNMENT. split; [|split].
  - rewrite Hk. apply Z.mod_mul. lia.
  - unfold upload_size_of, U.mul32, U.u32, U.wrap. rewrite Hk.
    change (2 ^ 32) with (256 * 16777216).
    rewrite Z.rem_mul_r by lia.
    replace (k * 256 * height) with (k * height * 256) by lia.
    rewrite Z.mod_mul by lia.
    rewrite Z.add_0_l, Z.mul_comm. apply Z.mod_mul. lia.
  - intros H0 H1.
    assert (Hm : U.mul32 width (GetPixelSize (m_format t))
                 = width * GetPixelSize (m_format t)).
    { unfold U.mul32, U.u32, U.wrap. apply Z.mod_small. lia. }
    unfold upload_pitch_of. rewrite Hm, AlignUpPow2_pitch_exact by lia.
    unfold round_up, D3D12_TEXTURE_DATA_PITCH_ALIGNMENT.
    set (v := width * GetPixelSize (m_format t)) in *.
    pose proof (Z.div_mod (v + 256 - 1) 256 ltac:(lia)) as Hd.
    pose proof (Z.mod_pos_bound (v + 256 - 1) 256 ltac:(lia)) as Hb.
    lia.
Qed.

End Pipeline.

Section Pipeline2.
Context `{GPUTextureDecls}.

Lemma upload_pitch_range (width : Z) (t : Texture) :
  0 <= upload_pitch_of width t < 2 ^ 32.
Proof.
  unfold upload_pitch_of, AlignUpPow2, D3D12_TEXTURE_DATA_PITCH_ALIGNMENT,
    U.add32.
  change (U.u32 (Z.lnot (U.u32 (256 - 1)))) with 4294967040.
  set (a := U.u32 _).
  assert (Ha : 0 <= a < 2 ^ 32)
    by (subst a; unfold U.u32, U.wrap; apply Z.mod_pos_bound; lia).
  rewrite land_clear_low8 by exact Ha.
  pose proof (Z.div_mod a 256 ltac:(lia)) as Hd.
  pose proof (Z.mod_pos_bound a 256 ltac:(lia)) as Hb.
  lia.
Qed.

(** X15. A successful upload through the stream buffer follows the
    buffer's protocol: one or two reservations of the upload size at the
    placement alignment, then the host pointer is read, the offset is read,
    exactly the reserved size is committed, and the buffer is fetched.  The
    one copy command reads a placed footprint at the offset that was read
    before the commit, with the upload rectangle's width and height, the
    aligned row pitch and the texture's native format, and writes the
    texture's resource at (x, y).  The host memory is what the row copy
    makes of it at the pointer that was read. *)
Theorem LoadData_streaming_protocol :
  forall (W : Type) (h : Handler W) (w : W) (x y width height : Z)
         (src_mem : Memory) (data pitch : Z) (t : Texture) (host : Memory)
         (t' : Texture) (host' : Memory),
    let r := run h (LoadData x y width height src_mem data pitch t host) w in
    let size := upload_size_of width height t in
    let reserve :=
      called (ReserveMemory size D3D12_TEXTURE_DATA_PLACEMENT_ALIGNMENT) in
    route (trace r) = Some Streaming ->
    outcome r = Returned (true, t', host') ->
    exists write_ptr offset buffer attempts,
      host_pointers (trace r) = [write_ptr] /\
      stream_offsets (trace r) = [offset] /\
      stream_buffers (trace r) = [buffer] /\
      commits (trace r) = [size] /\
      (attempts = [reserve] \/ attempts = [reserve; reserve]) /\
      stream_buffer_calls (trace r)
      = attempts ++ [called GetCurrentHostPointer; called GetCurrentOffset;
                     called (CommitMemory size); called GetBuffer] /\
      copy_regions (trace r)
      = [({| pResource := m_resource t;
             copy_Type := D3D12_TEXTURE_COPY_TYPE_SUBRESOURCE_INDEX;
             SubresourceIndex := 0; PlacedFootprint := None |},
          (x, y, 0),
          {| pResource := buffer;
             copy_Type := D3D12_TEXTURE_COPY_TYPE_PLACED_FOOTPRINT;
             SubresourceIndex := 0;
             PlacedFootprint :=
               Some {| fp_Offset := offset; fp_Width := width;
                       fp_Height := height; fp_Depth := 1;
                       fp_RowPitch := upload_pitch_of width t;
                       fp_Format := GetDXGIFormat (m_format t) |} |},
          {| box_left := 0; box_top := 0; box_front := 0;
             box_right := width; box_bottom := height; box_back := 1 |})] /\
      host' = CopyToUploadBuffer src_mem data pitch height host write_ptr
                (upload_pitch_of width t).
Proof.
  intros W h w x y width height src_mem data pitch t host t' host' r size
    reserve; subst r size reserve.
  unfold LoadData, BeginStreamUpdate, EndStreamUpdate, CopyFromBuffer,
    TransitionToState, upload_size_of, upload_pitch_of.
  destruct t as [tw th tl tv ts tf tr srv rtv st dv].
  run_all; intros Hroute Hout; try discriminate.
  all: try (exfalso; cbn in *; congruence).
  all: injection Hout as <- <-.
  all: do 3 eexists.
  all: first [ exists [called (ReserveMemory
                                 (U.mul32
                                    (AlignUpPow2
                                       (U.mul32 width (GetPixelSize tf))
                                       D3D12_TEXTURE_DATA_PITCH_ALIGNMENT)
                                    height)
                                 D3D12_TEXTURE_DATA_PLACEMENT_ALIGNMENT)];
               repeat (split; [reflexivity|]);
               split; [left; reflexivity|];
               repeat (split; [reflexivity|]); reflexivity
             | eexists;
               repeat (split; [reflexivity|]);
               split; [right; reflexivity|];
               repeat (split; [reflexivity|]); reflexivity ].
Qed.


(** X16. The pixels arrive.  After a successful upload through the stream
    buffer whose size did not wrap (aligned pitch times height below 2^32),
    every row of the caller's data is in the host memory at the pointer the
    stream buffer gave, the rows one aligned pitch apart: byte [col] of row
    [row] for every column below the smaller of the two pitches. *)
Theorem LoadData_streaming_pixels :
  forall (W : Type) (h : Handler W) (w : W) (x y width height : Z)
         (src_mem : Memory) (data pitch : Z) (t : Texture) (host : Memory)
         (t' : Texture) (host' : Memory),
    let r := run h (LoadData x y width height src_mem data pitch t host) w in
    U.in_u32 pitch -> U.in_u32 height ->
    upload_pitch_of width t * height < 2 ^ 32 ->
    route (trace r) = Some Streaming ->
    outcome r = Returned (true, t', host') ->
    exists write_ptr,
      host_pointers (trace r) = [write_ptr] /\
      forall row col,
        0 <= row < height ->
        0 <= col < Z.min pitch (upload_pitch_of width t) ->
        host' (write_ptr + row * upload_pitch_of width t + col)
        = src_mem (data + row * pitch + col).
Proof.
  intros W h w x y width height src_mem data pitch t host t' host' r
    Hpitch Hheight Hfit; subst r.
  pose proof (upload_pitch_range width t) as Hrange.
  unfold U.in_u32 in *. revert Hfit Hrange.
  unfold LoadData, BeginStreamUpdate, EndStreamUpdate, CopyFromBuffer,
    TransitionToState, upload_size_of, upload_pitch_of.
  destruct t as [tw th tl tv ts tf tr srv rtv st dv].
  run_all; intros Hfit Hrange Hroute Hout; try discriminate.
  all: try (exfalso; cbn in *; congruence).
  all: injection Hout as <- <-.
  all: eexists; split; [reflexivity|].
  all: intros row col Hrow Hcol; apply copy_pixels; lia.
Qed.


(** Every call on the stream buffer, the query of its size included. *)
Definition any_stream_buffer_call_of (e : Event) : option Called :=
  match ev_call e with
  | ReserveMemory s a => Some (called (ReserveMemory s a))
  | GetCurrentHostPointer => Some (called GetCurrentHostPointer)
  | GetCurrentOffset => Some (called GetCurrentOffset)
  | CommitMemory s => Some (called (CommitMemory s))
  | GetBuffer => Some (called GetBuffer)
  | GetSize => Some (called GetSize)
  | _ => None
  end.
Definition any_stream_buffer_calls := collect any_stream_buffer_call_of.

(** X17. On the staging sub-path the only call on the stream buffer is the
    one query of its size that decides the route: nothing is reserved or
    committed, no pointer, offset or buffer is read, and the host memory is
    not written, whether the upload succeeds or fails.  When it fails,
    either the creation of the staging texture failed and no pixel was
    written to it, or the write failed; in both cases no barrier and no
    copy is recorded, there is no explicit destruction (the staging texture
    is left to its destructor), and the object is as it was. *)
Theorem LoadData_staging_failure :
  forall (W : Type) (h : Handler W) (w : W) (x y width height : Z)
         (src_mem : Memory) (data pitch : Z) (t : Texture) (host : Memory)
         (ok : bool) (t' : Texture) (host' : Memory),
    let r := run h (LoadData x y width height src_mem data pitch t host) w in
    let create :=
      called (StagingTexture_Create width height
                (GetDXGIFormat (m_format t)) true) in
    let write :=
      called (StagingTexture_WritePixels 0 0 width height data pitch) in
    route (trace r) = Some Staging ->
    outcome r = Returned (ok, t', host') ->
    host' = host /\ t' = t /\
    any_stream_buffer_calls (trace r) = [called GetSize] /\
    stream_buffer_calls (trace r) = [] /\
    (ok = false ->
       (staging_calls (trace r) = [create; called StagingTexture_dtor] \/
        staging_calls (trace r) = [create; write; called StagingTexture_dtor]) /\
       staging_destroys (trace r) = [] /\
       cmds (trace r) = []).
Proof.
  intros W h w x y width height src_mem data pitch t host ok t' host' r
    create write; subst r create write.
  unfold LoadData, BeginStreamUpdate, EndStreamUpdate, CopyFromBuffer,
    TransitionToState.
  destruct t as [tw th tl tv ts tf tr srv rtv st dv].
  run_all; intros Hroute Hout; try discriminate.
  all: try (exfalso; cbn in *; congruence).
  all: injection Hout as <- <- <-.
  all: repeat (split; [reflexivity|]).
  all: intros Hok; try discriminate Hok.
  all: split; [first [left; reflexivity | right; reflexivity]|].
  all: split; reflexivity.
Qed.

End Pipeline2.

(** The same upload as in the streaming scenario, through the theorem. *)
Lemma LoadData_streaming_protocol_run :
  let r := run Double.handler
             (LoadData (H := Double.decls) 0 0 64 64 all_ab 0 256
                Double.texture_rgba8 Double.zeros)
             (Double.plentiful 16777216) in
  commits (trace r) = [16384] /\ host_pointers (trace r) = [0].
Proof.
  cbv zeta.
  destruct (LoadData_streaming_protocol (H := Double.decls)
              Double.World Double.handler (Double.plentiful 16777216)
              0 0 64 64 all_ab 0 256 Double.texture_rgba8 Double.zeros
              Double.texture_rgba8
              (CopyToUploadBuffer all_ab 0 256 64 Double.zeros 0 256))
    as (p & o & b & a & Hp & _ & _ & Hc & _).
  - vm_compute. reflexivity.
  - reflexivity.
  - split; [exact Hc|]. rewrite Hp. f_equal.
    assert (Hq : host_pointers
                   (trace (run Double.handler
                             (LoadData (H := Double.decls) 0 0 64 64 all_ab 0
                                256 Double.texture_rgba8 Double.zeros)
                             (Double.plentiful 16777216))) = [0])
      by (vm_compute; reflexivity).
    congruence.
Defined.

Lemma LoadData_streaming_pixels_run :
  let r := run Double.handler
             (LoadData (H := Double.decls) 0 0 64 64 all_ab 0 256
                Double.texture_rgba8 Double.zeros)
             (Double.plentiful 16777216) in
  exists write_ptr host' t',
    outcome r = Returned (true, t', host') /\
    host_pointers (trace r) = [write_ptr] /\
    host' (write_ptr + 63 * 256 + 255) = xab.
Proof.
  cbv zeta.
  destruct (LoadData_streaming_pixels (H := Double.decls)
              Double.World Double.handler (Double.plentiful 16777216)
              0 0 64 64 all_ab 0 256 Double.texture_rgba8 Double.zeros
              Double.texture_rgba8
              (CopyToUploadBuffer all_ab 0 256 64 Double.zeros 0 256))
    as (p & Hp & Hbytes).
  - unfold U.in_u32; lia.
  - unfold U.in_u32; lia.
  - vm_compute. reflexivity.
  - vm_compute. reflexivity.
  - reflexivity.
  - exists p. do 2 eexists. split; [reflexivity|]. split; [exact Hp|].
    apply (Hbytes 63 255); [lia|]. vm_compute. split; [discriminate|reflexivity].
Defined.

Lemma LoadData_staging_failure_run :
  let w := {| Double.sb_size := 1024; Double.reserve_script := [];
              Double.srv_slots := 8; Double.rtv_slots := 8;
              Double.dsv_slots := 8; Double.device_ok := true;
              Double.staging_create_ok := true;
              Double.staging_write_ok := false; Double.next_id := 100 |} in
  let r := run Double.handler
             (LoadData (H := Double.decls) 0 0 64 64 all_ab 0 256
                Double.texture_rgba8 Double.zeros) w in
  outcome r = Returned (false, Double.texture_rgba8, Double.zeros) /\
  staging_destroys (trace r) = [] /\ cmds (trace r) = [].
Proof.
  cbv zeta. split; [vm_compute; reflexivity|].
  refine (proj2 (proj2 (proj2 (proj2 (proj2
            (LoadData_staging_failure (H := Double.decls)
               Double.World Double.handler _ 0 0 64 64 all_ab 0 256
               Double.texture_rgba8 Double.zeros false Double.texture_rgba8
               Double.zeros _ _)))) eq_refl)).
  - vm_compute. reflexivity.
  - vm_compute. reflexivity.
Defined.

(** ** Sequences of transitions *)

(** One [TransitionToState] call after another, through [states]. *)
Fixpoint TransitionThrough (states : list D3D12_RESOURCE_STATES)
    (this : Texture) : Prog Texture :=
  match states with
  | [] => Ret this
  | s :: rest =>
      this' <- TransitionToState s this ;;
      TransitionThrough rest this'
  end.

(** The barriers a walk through [states] needs when starting in [current]:
    one per change of state, each leaving from where the previous one
    arrived. *)
Fixpoint barrier_chain (current : D3D12_RESOURCE_STATES)
    (states : list D3D12_RESOURCE_STATES) : list Cmd :=
  match states with
  | [] => []
  | s :: rest =>
      if current =? s then barrier_chain current rest
      else CmdBarrier current s :: barrier_chain s rest
  end.

Lemma set_state_twice (a b : D3D12_RESOURCE_STATES) (t : Texture) :
  set_state a (set_state b t) = set_state a t.
Proof. reflexivity. Qed.

(** X18. Any sequence of transitions keeps the tracked state in step with
    the barriers recorded: the barriers are exactly one per change of
    state, each from the state the previous one arrived in (the first from
    the state tracked at the start), repeated targets record nothing, and
    the object ends in the last target with every other field as it
    was. *)
Theorem TransitionThrough_chain :
  forall (states : list D3D12_RESOURCE_STATES) (W : Type) (h : Handler W)
         (w : W) (t : Texture),
    let r := run h (TransitionThrough states t) w in
    outcome r
    = Returned (set_state (fold_left (fun _ s => s) states (m_state t)) t) /\
    cmds (trace r) = barrier_chain (m_state t) states /\
    (List.length (cmds (trace r)) <= List.length states)%nat.
Proof.
  induction states as [|s rest IH]; intros W h w t; cbv zeta.
  - cbn. rewrite set_state_same. auto.
  - cbn [TransitionThrough barrier_chain fold_left List.length].
    unfold TransitionToState.
    destruct (Z.eqb_spec (m_state t) s) as [Heq|Hne].
    + cbn [bind]. destruct (IH W h w t) as (Ho & Hc & Hl).
      rewrite Hc in Hl. rewrite <- Heq. rewrite Ho, Hc.
      split; [reflexivity|]. split; [reflexivity|]. lia.
    + cbn.
      match goal with
      | |- context [run h (TransitionThrough rest ?t1) ?w1] =>
          destruct (IH W h w1 t1) as (Ho & Hc & Hl)
      end.
      rewrite Hc in Hl. rewrite Ho, Hc. cbn in *.
      split; [reflexivity|]. split; [reflexivity|]. lia.
Qed.

(** Runs of the two Create properties: a 64 x 64 depth texture with a
    sampled view, created on an empty object. *)
Lemma Create_holds_what_it_obtained_run :
  let r := run Double.handler
             (Create (H := Double.decls) 64 64 1 1 1 DXGI_FORMAT_D16_UNORM
                DXGI_FORMAT_R8_UNORM DXGI_FORMAT_UNKNOWN DXGI_FORMAT_D16_UNORM
                0 Texture_default)
             (Double.plentiful 1024) in
  exists t',
    outcome r = Returned (true, t') /\
    allocated (trace r)
    = [(DescriptorHeap, m_srv_descriptor t');
       (DSVHeap, m_rtv_or_dsv_descriptor t')] /\
    List.length (views (trace r)) = List.length (allocated (trace r)).
Proof.
  cbv zeta.
  assert (Hr : exists t',
             outcome
               (run Double.handler
                  (Create (H := Double.decls) 64 64 1 1 1 DXGI_FORMAT_D16_UNORM
                     DXGI_FORMAT_R8_UNORM DXGI_FORMAT_UNKNOWN
                     DXGI_FORMAT_D16_UNORM 0 Texture_default)
                  (Double.plentiful 1024)) = Returned (true, t'))
    by (eexists; vm_compute; reflexivity).
  destruct Hr as [t' Hr]. exists t'. split; [exact Hr|].
  destruct (Create_holds_what_it_obtained (H := Double.decls) _ _ _ _ _ _ _ _
              _ _ _ _ _ _ _ Hr) as (_ & Halloc & _ & _ & Hviews & _).
  split; [exact Halloc | exact Hviews].
Defined.

Lemma Create_then_Destroy_run :
  let r := run Double.handler
             (Create (H := Double.decls) 64 64 1 1 1 DXGI_FORMAT_D16_UNORM
                DXGI_FORMAT_R8_UNORM DXGI_FORMAT_UNKNOWN DXGI_FORMAT_D16_UNORM
                0 Texture_default)
             (Double.plentiful 1024) in
  exists t',
    outcome r = Returned (true, t') /\
    forall slot,
      In slot (allocated (trace r)) ->
      In slot (freed (trace (run Double.handler (Destroy false t') (world r)))).
Proof.
  cbv zeta.
  assert (Hr : exists t',
             outcome
               (run Double.handler
                  (Create (H := Double.decls) 64 64 1 1 1 DXGI_FORMAT_D16_UNORM
                     DXGI_FORMAT_R8_UNORM DXGI_FORMAT_UNKNOWN
                     DXGI_FORMAT_D16_UNORM 0 Texture_default)
                  (Double.plentiful 1024)) = Returned (true, t'))
    by (eexists; vm_compute; reflexivity).
  destruct Hr as [t' Hr]. exists t'. split; [exact Hr|].
  exact (proj1 (Create_then_Destroy (H := Double.decls) _ _ _ _ _ _ _ _ _ _ _
                  _ _ _ _ _ Double.handler _ Hr)).
Defined.
